(** * Apex Maths radar: the sample-data generator

    A shallow embedding of [generate_sample_data.py] and the properties its
    specification states about it.

    Conventions of the embedding.
    - Python [int] is [Z]; Python [float] is the kernel's binary64 [float]
      (same format, same round-to-nearest-even operations); decimal literals
      denote the nearest binary64 value in both languages.
    - Python [str] is [string].
    - The process-wide generator of module [random] is a tape of raw draws
      read left to right; every call consumes one cell.  Quantifying over
      tapes quantifies over every sequence of outcomes the calls can have.
    - A [datetime] is the number of seconds since 2026-02-01T00:00:00.
    - The local list [responses] and the clock are threaded through the
      loops as an explicit state; a ghost field [log] records the control
      events (budget tests, answered questions) in program order. *)

From Stdlib Require Import ZArith List String Ascii Bool Lia Floats.
From Stdlib Require Import DecimalString Sorted Permutation.
From Stdlib Require DecimalZ Finite.
Import ListNotations.

Set Warnings "-inexact-float".
Local Open Scope string_scope.
Local Open Scope list_scope.
Local Open Scope Z_scope.

(* ================================================================= *)
(** ** The Python runtime the script relies on *)

Module Py.

(** [str(n)] for an [int]. *)
Definition str (n : Z) : string := NilZero.string_of_int (Z.to_int n).

(** [s.zfill]-like left padding with ['0'] up to [width] characters. *)
Fixpoint zeros (k : nat) : string :=
  match k with
  | O => EmptyString
  | S k' => String "0"%char (zeros k')
  end.

Definition pad0 (width : nat) (digits : string) : string :=
  (zeros (width - String.length digits) ++ digits)%string.

(** [format(n, '0{width}d')]: sign-aware zero padding to a minimum width. *)
Definition format_0d (width : nat) (n : Z) : string :=
  if n <? 0
  then ("-" ++ pad0 (width - 1) (str (- n)))%string
  else pad0 width (str n).

(** [range(lo, hi)]. *)
Definition range (lo hi : Z) : list Z :=
  map (fun i => lo + Z.of_nat i) (seq 0 (Z.to_nat (hi - lo))).

(** The builtins [max(a, b)] and [min(a, b)] on floats: the first argument
    is kept unless the second is strictly greater (resp. smaller). *)
Definition max (a b : float) : float := if PrimFloat.ltb a b then b else a.
Definition min (a b : float) : float := if PrimFloat.ltb b a then b else a.

(** [float(n)]: the binary64 value nearest to [n] (exact below [2^53]).
    Beyond the binary64 range Python raises [OverflowError] where this
    yields an infinity; the script only converts grade differences. *)
Definition float_of_int (n : Z) : float :=
  SF2Prim (binary_normalize prec emax n 0 false).

(** *** Module [random] *)

Record rng := { tape : nat -> Z; pos : nat }.

Definition next_raw (g : rng) : Z * rng :=
  (tape g (pos g), {| tape := tape g; pos := S (pos g) |}).

(** [random.random()]: a multiple of [2^-53] in [[0, 1)]. *)
Definition random (g : rng) : float * rng :=
  let (raw, g') := next_raw g in
  (PrimFloat.div (float_of_int (raw mod 9007199254740992))
                 9007199254740992%float, g').

(** [random.randint(a, b)]: an integer of [[a, b]]. *)
Definition randint (a b : Z) (g : rng) : Z * rng :=
  let (raw, g') := next_raw g in
  (a + raw mod (b - a + 1), g').

(** [random.choice(seq)] on a non-empty sequence. *)
Definition choice (xs : list string) (g : rng) : string * rng :=
  let (raw, g') := next_raw g in
  (nth (Z.to_nat (raw mod Z.of_nat (List.length xs))) xs EmptyString, g').

(** [random.uniform(a, b)] is [a + (b - a) * random()]. *)
Definition uniform (a b : float) (g : rng) : float * rng :=
  let (u, g') := random g in
  (PrimFloat.add a (PrimFloat.mul (PrimFloat.sub b a) u), g').

(** *** Module [datetime] *)

Definition datetime := Z.

(** [datetime(2026, 2, 1, h, m, s)]. *)
Definition datetime_2026_02_01 (h m s : Z) : datetime := h * 3600 + m * 60 + s.

(** [(a - b).total_seconds()] and [a + timedelta(seconds=d)]. *)
Definition total_seconds_between (a b : datetime) : Z := a - b.
Definition add_seconds (a : datetime) (d : Z) : datetime := a + d.

(** [d.isoformat()] for a moment of February 2026 with no microseconds. *)
Definition isoformat (d : datetime) : string :=
  ("2026-02-" ++ format_0d 2 (1 + d / 86400) ++ "T" ++
   format_0d 2 (d mod 86400 / 3600) ++ ":" ++
   format_0d 2 (d mod 3600 / 60) ++ ":" ++
   format_0d 2 (d mod 60))%string.

(** *** Loops *)

(** [for x in xs: body] with no [break] in [body]. *)
Definition for_each {A S : Type} (xs : list A) (body : A -> S -> S) (s : S) : S :=
  fold_left (fun acc x => body x acc) xs s.

Inductive flow := Continue | Break.

(** [for x in xs: body] where [body] may execute [break]. *)
Fixpoint for_break {A S : Type} (xs : list A) (body : A -> S -> flow * S)
    (s : S) : S :=
  match xs with
  | [] => s
  | x :: xs' =>
      match body x s with
      | (Break, s') => s'
      | (Continue, s') => for_break xs' body s'
      end
  end.

End Py.

(* ================================================================= *)
(** ** Module-level constants of the script *)

Definition GRADE_COMPETENCIES : list (Z * list string) :=
  [ (4, ["NUM-MultiDigit"; "COMP-Advanced"; "MEAS-Standard"; "GEOM-Reasoning"]);
    (5, ["COMP-Advanced"; "NUM-Large"; "NUM-FracDec"; "MEAS-Advanced"]);
    (6, ["NUM-FracDec"; "DATA-Represent"; "NUM-Theory"; "RATIO-Proportion"]);
    (7, ["RATIO-Proportion"; "ALG-PreAlg"; "GEOM-Advanced"; "NUM-Theory"]);
    (8, ["ALG-PreAlg"; "GEOM-Advanced"; "NUM-AdvSystems"; "GEOM-Coord"]);
    (9, ["ALG-Manipulation"; "FUNC-Relationships"; "GEOM-Coord"; "GEOM-Advanced"]);
    (10, ["ALG-Manipulation"; "FUNC-Relationships"; "NUM-AdvSystems"; "GEOM-Trig"]);
    (11, ["FUNC-Advanced"; "CALC-Foundations"; "GEOM-Trig"; "DATA-Stats"]);
    (12, ["FUNC-Advanced"; "CALC-Foundations"; "DATA-Stats"; "GEOM-Trig"]) ].

(** [GRADE_COMPETENCIES[grade]]; [None] stands for [KeyError]. *)
Fixpoint dict_get (d : list (Z * list string)) (k : Z) : option (list string) :=
  match d with
  | [] => None
  | (k', v) :: d' => if k =? k' then Some v else dict_get d' k
  end.

Definition FIRST_NAMES : list string :=
  ["Thabo"; "Lerato"; "Sipho"; "Naledi"; "Johan"; "Fatima"; "Ayesha";
   "Pieter"; "Zanele"; "Mandla"; "Caitlin"; "Ravi"; "Lindiwe"; "James";
   "Precious"; "David"; "Neo"; "Palesa"; "Mohammed"; "Sarah"].

Definition LAST_NAMES : list string :=
  ["Nkosi"; "Dlamini"; "Van der Merwe"; "Pillay"; "Mokoena"; "Smith";
   "Ndlovu"; "Botha"; "Govender"; "Molefe"; "Williams"; "Tshabalala"].

(* ================================================================= *)
(** ** [generate_question_id] *)

Definition generate_question_id (grade : Z) (competency : string)
    (q_type seq : Z) : string :=
  ("G" ++ Py.str grade ++ "_" ++ competency ++ "_T" ++ Py.str q_type ++ "_" ++
   Py.format_0d 2 seq)%string.

(* ================================================================= *)
(** ** [simulate_student_performance] *)

Record response := {
  question_id : string;
  grade_tag : string;
  competency_tag : string;
  type_tag : string;
  is_correct : Z;
  timestamp : string
}.

(** Ghost events, in program order: the evaluation of the time-limit test
    at the head of the competency loop, and the completion of a question. *)
Inductive event :=
| EvCheck (grade : Z) (comp : string) (elapsed : Z)
| EvAnswer (grade : Z) (comp : string) (q_type seq : Z)
           (time_per_q : Z) (now : Py.datetime) (r : response).

Record sim_state := {
  responses : list response;
  current_time : Py.datetime;
  gen : Py.rng;
  log : list event
}.

Definition start_time : Py.datetime := Py.datetime_2026_02_01 9 0 0.
Definition time_limit_seconds : Z := 90 * 60.

(** Lines 64-85: the probability that the answer is correct. *)
Definition base_rate (grade_diff : Z) (base_skill : float) : float :=
  if grade_diff <=? -2 then 0.95%float
  else if grade_diff <=? 0 then PrimFloat.add base_skill 0.1
  else if grade_diff =? 1 then PrimFloat.sub base_skill 0.05
  else if grade_diff =? 2 then PrimFloat.sub base_skill 0.15
  else Py.max 0.25
         (PrimFloat.sub base_skill
            (PrimFloat.mul (Py.float_of_int grade_diff) 0.1)).

Definition type_penalty (q_type : Z) (p : float) : float :=
  if q_type =? 3 then PrimFloat.sub p 0.05 else p.

Definition clamp_probability (p : float) : float :=
  Py.max 0.15 (Py.min 0.98 p).

Definition prob_correct (grade student_grade : Z) (base_skill : float)
    (q_type : Z) : float :=
  let grade_diff := grade - student_grade in
  clamp_probability (type_penalty q_type (base_rate grade_diff base_skill)).

(** Lines 63-100: the body of the innermost loop. *)
Definition answer_question (student_grade : Z) (base_skill : float)
    (grade : Z) (comp : string) (q_type seq : Z) (st : sim_state) : sim_state :=
  let p := prob_correct grade student_grade base_skill q_type in
  let (u, g1) := Py.random (gen st) in
  let correct := PrimFloat.ltb u p in
  let (k, g2) := Py.randint 15 30 g1 in
  let time_per_q := k + (grade - 4) * 3 in
  let now := Py.add_seconds (current_time st) time_per_q in
  let r := {| question_id := generate_question_id grade comp q_type seq;
              grade_tag := ("Grade-" ++ Py.str grade)%string;
              competency_tag := comp;
              type_tag := ("Type-" ++ Py.str q_type)%string;
              is_correct := if correct then 1 else 0;
              timestamp := Py.isoformat now |} in
  {| responses := responses st ++ [r];
     current_time := now;
     gen := g2;
     log := log st ++ [EvAnswer grade comp q_type seq time_per_q now r] |}.

(** Lines 61-62: the six questions of one competency. *)
Definition competency_questions (student_grade : Z) (base_skill : float)
    (grade : Z) (comp : string) (st : sim_state) : sim_state :=
  Py.for_each [1; 2; 3] (fun q_type =>
    Py.for_each [1; 2] (fun seq =>
      answer_question student_grade base_skill grade comp q_type seq)) st.

(** Lines 55-59: one turn of the competency loop, with its [break]. *)
Definition competency_step (student_grade : Z) (base_skill : float)
    (grade : Z) (comp : string) (st : sim_state) : Py.flow * sim_state :=
  let elapsed := Py.total_seconds_between (current_time st) start_time in
  let st1 := {| responses := responses st; current_time := current_time st;
                gen := gen st;
                log := log st ++ [EvCheck grade comp elapsed] |} in
  if time_limit_seconds <=? elapsed
  then (Py.Break, st1)
  else (Py.Continue,
        competency_questions student_grade base_skill grade comp st1).

(** Lines 52-55: one turn of the grade loop. *)
Definition grade_step (student_grade : Z) (base_skill : float)
    (grade : Z) (st : sim_state) : sim_state :=
  match dict_get GRADE_COMPETENCIES grade with
  | Some competencies =>
      Py.for_break competencies
        (competency_step student_grade base_skill grade) st
  | None => st
  end.

Definition initial_state (g : Py.rng) : sim_state :=
  {| responses := []; current_time := start_time; gen := g; log := [] |}.

(** The whole run, as a state. *)
Definition simulate_run (student_grade : Z) (base_skill : float)
    (g : Py.rng) : sim_state :=
  Py.for_each (Py.range 4 13) (grade_step student_grade base_skill)
    (initial_state g).

(** The function's result [(responses, False)], with the generator after. *)
Definition simulate_student_performance (student_grade : Z)
    (base_skill : float) (g : Py.rng) : (list response * bool) * Py.rng :=
  let st := simulate_run student_grade base_skill g in
  ((responses st, false), gen st).

(* ================================================================= *)
(** ** A trace semantics of the simulator

    The shape of every log the three nested loops can produce, as an
    inductive description indexed by the clock before and after. *)

Definition min_duration (grade : Z) : Z := 15 + (grade - 4) * 3.
Definition max_duration (grade : Z) : Z := 30 + (grade - 4) * 3.

(** The (type, sequence) pairs of one competency, in iteration order. *)
Definition question_keys : list (Z * Z) :=
  [(1, 1); (1, 2); (2, 1); (2, 2); (3, 1); (3, 2)].

(** What the record appended for one question holds. *)
Record emitted (grade : Z) (comp : string) (q_type seq : Z)
    (now : Py.datetime) (r : response) : Prop := {
  em_id : question_id r = generate_question_id grade comp q_type seq;
  em_grade : grade_tag r = ("Grade-" ++ Py.str grade)%string;
  em_comp : competency_tag r = comp;
  em_type : type_tag r = ("Type-" ++ Py.str q_type)%string;
  em_flag : is_correct r = 0 \/ is_correct r = 1;
  em_time : timestamp r = Py.isoformat now
}.

Inductive answers_from (grade : Z) (comp : string) :
  Py.datetime -> list (Z * Z) -> list event -> Py.datetime -> Prop :=
| af_nil : forall t, answers_from grade comp t [] [] t
| af_cons : forall t q_type seq keys d r evs t',
    min_duration grade <= d <= max_duration grade ->
    emitted grade comp q_type seq (t + d) r ->
    answers_from grade comp (t + d) keys evs t' ->
    answers_from grade comp t ((q_type, seq) :: keys)
      (EvAnswer grade comp q_type seq d (t + d) r :: evs) t'.

Inductive comps_trace (grade : Z) :
  Py.datetime -> list string -> list event -> Py.datetime -> Prop :=
| ct_done : forall t, comps_trace grade t [] [] t
| ct_break : forall t comp comps,
    time_limit_seconds <= t - start_time ->
    comps_trace grade t (comp :: comps) [EvCheck grade comp (t - start_time)] t
| ct_run : forall t comp comps evs t1 evs' t2,
    t - start_time < time_limit_seconds ->
    answers_from grade comp t question_keys evs t1 ->
    comps_trace grade t1 comps evs' t2 ->
    comps_trace grade t (comp :: comps)
      (EvCheck grade comp (t - start_time) :: evs ++ evs') t2.

Inductive grades_trace :
  Py.datetime -> list Z -> list event -> Py.datetime -> Prop :=
| gt_done : forall t, grades_trace t [] [] t
| gt_grade : forall t grade grades comps evs t1 evs' t2,
    dict_get GRADE_COMPETENCIES grade = Some comps ->
    comps_trace grade t comps evs t1 ->
    grades_trace t1 grades evs' t2 ->
    grades_trace t (grade :: grades) (evs ++ evs') t2.

(** The records carried by the answer events of a log. *)
Fixpoint records (evs : list event) : list response :=
  match evs with
  | [] => []
  | EvCheck _ _ _ :: evs' => records evs'
  | EvAnswer _ _ _ _ _ _ r :: evs' => r :: records evs'
  end.

(** [s'] is [s] after the events [evs]: both lists only grow at the end. *)
Definition extends (s s' : sim_state) (evs : list event) : Prop :=
  log s' = log s ++ evs /\ responses s' = responses s ++ records evs.

(** The least time the full traversal of the listed grades can take. *)
Definition least_duration (grades : list Z) : Z :=
  fold_right (fun g acc => 24 * min_duration g + acc) 0 grades.


(** *** The questions of the bank, in iteration order *)

Definition key : Type := Z * string * Z * Z.

Definition id_of_key (k : key) : string :=
  let '(g, c, t, s) := k in generate_question_id g c t s.

Definition competency_keys (grade : Z) (comp : string) : list key :=
  map (fun ts => (grade, comp, fst ts, snd ts)) question_keys.

Definition grade_keys (grade : Z) : list key :=
  match dict_get GRADE_COMPETENCIES grade with
  | Some comps => flat_map (competency_keys grade) comps
  | None => []
  end.

Definition all_keys : list key := flat_map grade_keys (Py.range 4 13).

(** The questions answered along a log. *)
Fixpoint answered_keys (evs : list event) : list key :=
  match evs with
  | [] => []
  | EvCheck _ _ _ :: evs' => answered_keys evs'
  | EvAnswer g c t s _ _ _ :: evs' => (g, c, t, s) :: answered_keys evs'
  end.

(** [subseq l l']: [l] is [l'] with some elements left out. *)
Inductive subseq {A : Type} : list A -> list A -> Prop :=
| subseq_nil : forall l, subseq [] l
| subseq_skip : forall x l l', subseq l l' -> subseq l (x :: l')
| subseq_take : forall x l l', subseq l l' -> subseq (x :: l) (x :: l').

(** A checker for the absence of repeated strings. *)
Fixpoint distinct (l : list string) : bool :=
  match l with
  | [] => true
  | x :: l' => negb (existsb (String.eqb x) l') && distinct l'
  end.

(** A budget test fails when the elapsed time has reached the limit. *)
Definition failing (e : event) : Prop :=
  match e with
  | EvCheck _ _ elapsed => time_limit_seconds <= elapsed
  | EvAnswer _ _ _ _ _ _ _ => False
  end.

(** The records of a run that carry the tag of [grade]. *)
Definition records_of_grade (grade : Z) (rs : list response) : list response :=
  filter (fun r => String.eqb (grade_tag r) ("Grade-" ++ Py.str grade)) rs.

(** The competency at which the loop of [grade] starts. *)
Definition first_competency (grade : Z) : string :=
  match dict_get GRADE_COMPETENCIES grade with
  | Some (comp :: _) => comp
  | _ => EmptyString
  end.

(** What the log holds after the budget is found exhausted with [elapsed]
    seconds on the clock: one failed test per remaining grade. *)
Definition idle_grades (elapsed : Z) (grades : list Z) : list event :=
  map (fun g => EvCheck g (first_competency g) elapsed) grades.

(** *** The clock along a log *)

(** The clock readings at which the questions of a log were answered. *)
Fixpoint answer_clocks (evs : list event) : list Py.datetime :=
  match evs with
  | [] => []
  | EvCheck _ _ _ :: evs' => answer_clocks evs'
  | EvAnswer _ _ _ _ _ now _ :: evs' => now :: answer_clocks evs'
  end.

(** The clock after the events of a log, started at [t]. *)
Fixpoint clock_after (t : Py.datetime) (evs : list event) : Py.datetime :=
  match evs with
  | [] => t
  | EvCheck _ _ _ :: evs' => clock_after t evs'
  | EvAnswer _ _ _ _ _ now _ :: evs' => clock_after now evs'
  end.

(** Started at [t], every budget test reads the current clock, and every
    question advances the clock by its duration, a draw of [15..30] plus
    three seconds per grade above 4, and stamps its record afterwards. *)
Fixpoint clock_chain (t : Py.datetime) (evs : list event) : Prop :=
  match evs with
  | [] => True
  | EvCheck _ _ elapsed :: evs' =>
      elapsed = t - start_time /\ clock_chain t evs'
  | EvAnswer g _ _ _ d now r :: evs' =>
      4 <= g <= 12 /\
      (exists k, 15 <= k <= 30 /\ d = k + 3 * (g - 4)) /\
      now = t + d /\
      timestamp r = Py.isoformat now /\
      clock_chain now evs'
  end.

(** No clock reading of a run lies beyond this moment (10:35:23). *)
Definition latest_answer : Py.datetime := start_time + 5723.

(** The order Python puts on [str], as a relation. *)
Definition str_le (a b : string) : Prop := String.leb a b = true.

(* ================================================================= *)
(** ** More of the runtime: text, numbers, files and the console *)

Module PyIO.

(** [s.split(sep)] for a one-character separator. *)
Fixpoint split (sep : ascii) (s : string) : list string :=
  match s with
  | EmptyString => [EmptyString]
  | String c s' =>
      if Ascii.eqb c sep then EmptyString :: split sep s'
      else match split sep s' with
           | [] => [String c EmptyString]
           | w :: ws => String c w :: ws
           end
  end.

(** [int(s)] for an optionally signed run of decimal digits; [None] stands
    for [ValueError]. *)
Definition int (s : string) : option Z :=
  option_map Z.of_int (NilZero.int_of_string s).

(** [max(xs)] over integers; [None] stands for the [ValueError] raised on
    an empty sequence. *)
Definition max_of (xs : list Z) : option Z :=
  match xs with
  | [] => None
  | x :: xs' => Some (fold_left Z.max xs' x)
  end.

(** [sum(xs)] over integers. *)
Definition sum (xs : list Z) : Z := fold_left Z.add xs 0.

(** [a / b] on integers: [None] stands for [ZeroDivisionError].  The
    quotient of the two conversions is the correctly rounded quotient as
    long as both integers are below [2^53]. *)
Definition truediv (a b : Z) : option float :=
  if b =? 0 then None
  else Some (PrimFloat.div (Py.float_of_int a) (Py.float_of_int b)).

(** The integer nearest to [m * 2^e], ties going to the even one. *)
Definition round_half_even (m e : Z) : Z :=
  if 0 <=? e then m * 2 ^ e
  else
    let d := 2 ^ (- e) in
    let q := m / d in
    let r := m mod d in
    if 2 * r <? d then q
    else if d <? 2 * r then q + 1
    else if Z.even q then q else q + 1.

(** [format(x, '.0f')]. *)
Definition format_f0 (x : float) : string :=
  match Prim2SF x with
  | S754_zero s => if s then "-0" else "0"
  | S754_infinity s => if s then "-inf" else "inf"
  | S754_nan => "nan"
  | S754_finite s m e =>
      ((if s then "-" else "") ++ Py.str (round_half_even (Z.pos m) e))%string
  end.

(** The part of the world the script touches: which paths [open] opens
    for writing (never one with a NUL character), the CSV files written so
    far (as rows of cells), and the lines printed on standard output. *)
Record world := {
  writable : string -> bool;
  files : string -> option (list (list string));
  stdout : list string
}.

Definition print (line : string) (w : world) : world :=
  {| writable := writable w; files := files w; stdout := stdout w ++ [line] |}.

Definition write_csv (path : string) (rows : list (list string)) (w : world)
    : world :=
  {| writable := writable w;
     files := fun p => if String.eqb p path then Some rows else files w p;
     stdout := stdout w |}.

Inductive exn := OSError | ValueError | ZeroDivisionError.

Inductive outcome := Returned (w : world) | Raised (e : exn) (w : world).

(** Whether a path holds a NUL character. *)
Fixpoint has_nul (path : string) : bool :=
  match path with
  | EmptyString => false
  | String c path' => Ascii.eqb c Ascii.zero || has_nul path'
  end.

(** The exception in which [open(path, 'w')] ends when it fails:
    [ValueError] ("embedded null byte") for a path with a NUL character,
    an [OSError] (missing directory, permissions, ...) for any other. *)
Definition open_error (path : string) : exn :=
  if has_nul path then ValueError else OSError.

End PyIO.

(* ================================================================= *)
(** ** [generate_sample_data] *)

(** One output row: the student's three fields and, through [**resp], the
    six fields of a response. *)
Record row := {
  student_id : string;
  student_name : string;
  student_grade_level : Z;
  resp : response
}.

Definition fieldnames : list string :=
  ["student_id"; "student_name"; "student_grade_level"; "question_id";
   "grade_tag"; "competency_tag"; "type_tag"; "is_correct"; "timestamp"].

(** The cells [csv.DictWriter] writes for a row, in [fieldnames] order. *)
Definition csv_cells (r : row) : list string :=
  [student_id r; student_name r; Py.str (student_grade_level r);
   question_id (resp r); grade_tag (resp r); competency_tag (resp r);
   type_tag (resp r); Py.str (is_correct (resp r)); timestamp (resp r)].

(** Lines 109-130: the body of the student loop. *)
Definition generate_student (i : Z) (acc : list row * Py.rng)
    : list row * Py.rng :=
  let (all_rows, g) := acc in
  let sid := ("STU" ++ Py.format_0d 3 (i + 1))%string in
  let (first_name, g1) := Py.choice FIRST_NAMES g in
  let (last_name, g2) := Py.choice LAST_NAMES g1 in
  let name := (first_name ++ " " ++ last_name)%string in
  let (student_grade, g3) := Py.randint 4 12 g2 in
  let (base_skill, g4) := Py.uniform 0.5 0.9 g3 in
  let '((responses, stopped_early), g5) :=
    simulate_student_performance student_grade base_skill g4 in
  (all_rows ++
     map (fun r => {| student_id := sid; student_name := name;
                      student_grade_level := student_grade; resp := r |})
         responses,
   g5).

(** Lines 107-130: [all_rows] after the student loop. *)
Definition generate_rows (num_students : Z) (g : Py.rng) : list row * Py.rng :=
  Py.for_each (Py.range 0 num_students) generate_student ([], g).

(** Line 149. *)
Definition student_rows (all_rows : list row) (sid : string) : list row :=
  filter (fun r => String.eqb (student_id r) sid) all_rows.

(** Line 150. *)
Definition correct_count (rows : list row) : Z :=
  PyIO.sum (map (fun r => is_correct (resp r)) rows).

(** Line 152; [None] stands for the exception a malformed tag or an empty
    sequence would raise. *)
Definition grade_of_tag (tag : string) : option Z :=
  match PyIO.split "-"%char tag with
  | _ :: g :: _ => PyIO.int g
  | _ => None
  end.

Fixpoint all_some {A : Type} (l : list (option A)) : option (list A) :=
  match l with
  | [] => Some []
  | None :: _ => None
  | Some x :: l' => option_map (cons x) (all_some l')
  end.

Definition max_grade (rows : list row) : option Z :=
  match all_some (map (fun r => grade_of_tag (grade_tag (resp r))) rows) with
  | Some gs => PyIO.max_of gs
  | None => None
  end.

(** Lines 149-153: the line printed for one student, or the exception. *)
Definition summary_line (all_rows : list row) (sid : string)
    : PyIO.exn + string :=
  let rows := student_rows all_rows sid in
  let correct := correct_count rows in
  let total := Z.of_nat (List.length rows) in
  match max_grade rows with
  | None => inl PyIO.ValueError
  | Some reached =>
      match PyIO.truediv (100 * correct) total with
      | None => inl PyIO.ZeroDivisionError
      | Some pct =>
          inr ("  " ++ sid ++ ": " ++ Py.str correct ++ "/" ++ Py.str total ++
               " correct (" ++ PyIO.format_f0 pct ++ "%), reached Grade " ++
               Py.str reached)%string
      end
  end.

(** Lines 147-148: [list(students)[:3]].  The order in which a [set] of
    strings is iterated is not fixed by the language; [set_order] stands
    for the one of the running interpreter. *)
Definition summary_students (set_order : list string -> list string)
    (all_rows : list row) : list string :=
  firstn 3 (set_order (map student_id all_rows)).

(** Lines 148-153: the summary loop, stopped by the first exception. *)
Fixpoint print_summary (all_rows : list row) (sids : list string)
    (w : PyIO.world) : PyIO.outcome :=
  match sids with
  | [] => PyIO.Returned w
  | sid :: sids' =>
      match summary_line all_rows sid with
      | inl e => PyIO.Raised e w
      | inr line => print_summary all_rows sids' (PyIO.print line w)
      end
  end.

(** Lines 133-153: what happens once [all_rows] is built. *)
Definition write_and_report (set_order : list string -> list string)
    (all_rows : list row) (num_students : Z) (output_file : string)
    (w : PyIO.world) : PyIO.outcome :=
  match all_rows with
  | [] => PyIO.Returned w
  | _ :: _ =>
      if PyIO.writable w output_file then
        let w1 := PyIO.write_csv output_file
                    (fieldnames :: map csv_cells all_rows) w in
        let w2 := PyIO.print
                    ("Generated " ++ Py.str (Z.of_nat (List.length all_rows)) ++
                     " responses for " ++ Py.str num_students ++ " students")%string
                    w1 in
        let w3 := PyIO.print ("Saved to: " ++ output_file)%string w2 in
        print_summary all_rows (summary_students set_order all_rows) w3
      else PyIO.Raised (PyIO.open_error output_file) w
  end.

Definition generate_sample_data (set_order : list string -> list string)
    (num_students : Z) (output_file : string) (g : Py.rng) (w : PyIO.world)
    : PyIO.outcome :=
  let (all_rows, _) := generate_rows num_students g in
  write_and_report set_order all_rows num_students output_file w.

(** *** Sample inputs *)

(** A set iterated in the order of first insertion. *)
Fixpoint insertion_order (l : list string) : list string :=
  match l with
  | [] => []
  | x :: l' => x :: filter (fun y => negb (String.eqb y x)) (insertion_order l')
  end.

(** A set iterated in the reverse of that order. *)
Definition reverse_order (l : list string) : list string :=
  rev (insertion_order l).

Definition sample_rng : Py.rng :=
  {| Py.tape := fun n => Z.of_nat n * 7919 + 13; Py.pos := 0 |}.

Definition empty_world : PyIO.world :=
  {| PyIO.writable := fun _ => true;
     PyIO.files := fun _ => None;
     PyIO.stdout := [] |}.

Definition sample_path : string := "data/sample_quiz_results.csv".

(** Budget tests fall between competencies: started with [n] questions
    answered, every test of the log sees a multiple of six. *)
Fixpoint checks_between_competencies (n : nat) (evs : list event) : Prop :=
  match evs with
  | [] => True
  | EvCheck _ _ _ :: evs' =>
      (exists k, n = (6 * k)%nat) /\ checks_between_competencies n evs'
  | EvAnswer _ _ _ _ _ _ _ :: evs' => checks_between_competencies (S n) evs'
  end.

(** A checker: no budget test of [grade] in the log has failed. *)
Definition grade_untruncated (grade : Z) (evs : list event) : bool :=
  forallb (fun e => match e with
                    | EvCheck g _ elapsed =>
                        negb (g =? grade) || (elapsed <? time_limit_seconds)
                    | EvAnswer _ _ _ _ _ _ _ => true
                    end) evs.

(** The six identifiers of a competency, spelled out. *)
Definition six_ids (grade : Z) (comp : string) : list string :=
  [generate_question_id grade comp 1 1; generate_question_id grade comp 1 2;
   generate_question_id grade comp 2 1; generate_question_id grade comp 2 2;
   generate_question_id grade comp 3 1; generate_question_id grade comp 3 2].

(** *** Notions used to describe the rows and the summary *)

(** The identifier given to the student of loop index [i]. *)
Definition student_id_of (i : Z) : string :=
  ("STU" ++ Py.format_0d 3 (i + 1))%string.

(** The rows one turn of the student loop appends: the records of one
    simulated attempt, under the identity of student [i]. *)
Definition student_block (i : Z) (block : list row) : Prop :=
  exists name student_grade base_skill g,
    4 <= student_grade <= 12 /\
    block = map (fun r => {| student_id := student_id_of i;
                             student_name := name;
                             student_grade_level := student_grade;
                             resp := r |})
                (responses (simulate_run student_grade base_skill g)).

(** A checker for one entry of the percentage table: the text printed for
    [100 * correct / total] under [.0f] is the integer nearest to the exact
    quotient, ties going to the even one. *)
Definition nearest_percent (correct total : Z) : Z :=
  let p := (200 * correct + total) / (2 * total) in
  if (200 * correct + total =? 2 * total * p) && Z.odd p then p - 1 else p.

Definition percent_ok (correct total : Z) : bool :=
  match PyIO.truediv (100 * correct) total with
  | None => false
  | Some q =>
      String.eqb (PyIO.format_f0 q) (Py.str (nearest_percent correct total)) &&
      (Z.abs (200 * correct - 2 * nearest_percent correct total * total)
         <=? total)
  end.

(** What the summary line of student [sid] says about the rows. *)
Definition summary_of (all_rows : list row) (sid line : string) : Prop :=
  In sid (map student_id all_rows) /\
  exists correct total pct reached,
    total = Z.of_nat (List.length (student_rows all_rows sid)) /\
    0 < total /\
    correct = Z.of_nat (List.length
                (filter (fun r => is_correct (resp r) =? 1)
                        (student_rows all_rows sid))) /\
    Z.abs (200 * correct - 2 * pct * total) <= total /\
    (exists r, In r (student_rows all_rows sid) /\
               grade_tag (resp r) = ("Grade-" ++ Py.str reached)%string) /\
    (forall r, In r (student_rows all_rows sid) ->
       exists g, grade_tag (resp r) = ("Grade-" ++ Py.str g)%string /\
                 g <= reached) /\
    line = ("  " ++ sid ++ ": " ++ Py.str correct ++ "/" ++ Py.str total ++
            " correct (" ++ Py.str pct ++ "%), reached Grade " ++
            Py.str reached)%string.

(** The admissible iteration orders of a [set]: each element once. *)
Definition set_iteration (set_order : list string -> list string) : Prop :=
  forall l, Permutation (set_order l) (insertion_order l).

(** *** The statements of the specification the script departs from *)

(** "Student count 0: the file holds exactly the header row, and the
    summary shows [Generated 0 responses for 0 students]." *)
Definition empty_run_writes_header (set_order : list string -> list string)
    (output_file : string) (g : Py.rng) (w : PyIO.world) : Prop :=
  exists w',
    generate_sample_data set_order 0 output_file g w = PyIO.Returned w' /\
    PyIO.files w' output_file = Some [fieldnames] /\
    In "Generated 0 responses for 0 students" (PyIO.stdout w').

(** "The summary covers the first 3 distinct student ids encountered in
    the row sequence." *)
Definition summary_covers_first_three
    (set_order : list string -> list string) (num_students : Z)
    (g : Py.rng) : Prop :=
  summary_students set_order (fst (generate_rows num_students g))
    = firstn 3 (insertion_order
                  (map student_id (fst (generate_rows num_students g)))).

(** What every record of a run satisfies: a 0/1 flag and the tag of a
    grade of the table. *)
Definition well_formed_record (r : response) : Prop :=
  (is_correct r = 0 \/ is_correct r = 1) /\
  exists g, 4 <= g <= 12 /\ grade_tag r = ("Grade-" ++ Py.str g)%string.

(* ================================================================= *)
(** ** Further notions, for properties beyond the specification's *)

(** The record the simulator appends for the question [k] of the bank. *)
Definition record_matches (k : key) (r : response) : Prop :=
  let '(g, c, t, s) := k in
  question_id r = generate_question_id g c t s /\
  grade_tag r = ("Grade-" ++ Py.str g)%string /\
  competency_tag r = c /\
  type_tag r = ("Type-" ++ Py.str t)%string /\
  (is_correct r = 0 \/ is_correct r = 1).

(** The most time the full traversal of the listed grades can take. *)
Definition most_duration (grades : list Z) : Z :=
  fold_right (fun g acc => 24 * max_duration g + acc) 0 grades.

(** Generators whose every draw is the same raw value: [slowest_rng] makes
    every question take its longest, [fastest_rng] its shortest. *)
Definition slowest_rng : Py.rng := {| Py.tape := fun _ => 15; Py.pos := 0 |}.
Definition fastest_rng : Py.rng := {| Py.tape := fun _ => 0; Py.pos := 0 |}.

(** The rows one turn of the student loop appends, with where the name and
    the grade level come from. *)
Definition cohort_block (i : Z) (block : list row) : Prop :=
  exists first_name last_name student_grade base_skill g,
    In first_name FIRST_NAMES /\ In last_name LAST_NAMES /\
    4 <= student_grade <= 12 /\
    block = map (fun r => {| student_id := student_id_of i;
                             student_name := (first_name ++ " " ++ last_name)%string;
                             student_grade_level := student_grade;
                             resp := r |})
                (responses (simulate_run student_grade base_skill g)).

(** A world in which no path can be opened for writing. *)
Definition locked_world : PyIO.world :=
  {| PyIO.writable := fun _ => false;
     PyIO.files := fun _ => None;
     PyIO.stdout := [] |}.

(** What a summary line can say, whatever the students and the draws. *)
Definition summary_in_range (sid line : string) : Prop :=
  exists correct total pct reached,
    line = ("  " ++ sid ++ ": " ++ Py.str correct ++ "/" ++ Py.str total ++
            " correct (" ++ Py.str pct ++ "%), reached Grade " ++
            Py.str reached)%string /\
    0 <= correct <= total /\ 144 <= total <= 210 /\
    0 <= pct <= 100 /\ 9 <= reached <= 12.

(** A line of the file as the writer lays it out for a row of the data. *)
Definition data_line (cells : list string) : Prop :=
  exists sid name level qid gtag ctag ttag flag stamp,
    cells = [sid; name; level; qid; gtag; ctag; ttag; flag; stamp] /\
    (exists i, 0 <= i /\ sid = student_id_of i) /\
    (exists g, 4 <= g <= 12 /\ level = Py.str g) /\
    (flag = "0" \/ flag = "1").

(** Lines 156-157: the script run as a program. *)
Definition main (set_order : list string -> list string) (g : Py.rng)
    (w : PyIO.world) : PyIO.outcome :=
  generate_sample_data set_order 30 "data/sample_quiz_results.csv" g w.
(* ================================================================= *)
(** * Proofs *)

(** ** The simulator follows its trace semantics *)

Lemma records_app (l1 l2 : list event) :
  records (l1 ++ l2) = records l1 ++ records l2.
Proof.
  induction l1 as [|e l1 IH]; simpl; [reflexivity|].
  destruct e; simpl; rewrite IH; reflexivity.
Qed.

Lemma extends_refl (s : sim_state) : extends s s [].
Proof. split; simpl; now rewrite app_nil_r. Qed.

Lemma extends_trans (s1 s2 s3 : sim_state) (e1 e2 : list event) :
  extends s1 s2 e1 -> extends s2 s3 e2 -> extends s1 s3 (e1 ++ e2).
Proof.
  intros [L1 R1] [L2 R2]; split.
  - now rewrite L2, L1, app_assoc.
  - now rewrite R2, R1, records_app, app_assoc.
Qed.

Lemma randint_15_30 (g : Py.rng) : 15 <= fst (Py.randint 15 30 g) <= 30.
Proof.
  cbv [Py.randint Py.next_raw fst].
  change (30 - 15 + 1) with 16.
  pose proof (Z.mod_pos_bound (Py.tape g (Py.pos g)) 16 eq_refl). lia.
Qed.

Section Refinement.

Variable student_grade : Z.
Variable base_skill : float.

Lemma answer_question_spec grade comp q_type seq (s : sim_state) :
  exists d r,
    min_duration grade <= d <= max_duration grade /\
    emitted grade comp q_type seq (current_time s + d) r /\
    current_time
      (answer_question student_grade base_skill grade comp q_type seq s)
      = current_time s + d /\
    extends s (answer_question student_grade base_skill grade comp q_type seq s)
      [EvAnswer grade comp q_type seq d (current_time s + d) r].
Proof.
  unfold answer_question.
  destruct (Py.random (gen s)) as [u g1].
  pose proof (randint_15_30 g1) as Hk.
  destruct (Py.randint 15 30 g1) as [k g2]; simpl in Hk.
  eexists; eexists; split; [|split; [|split; [|split]]].
  4: { simpl; unfold Py.add_seconds; reflexivity. }
  4: { simpl; unfold Py.add_seconds; reflexivity. }
  - unfold min_duration, max_duration; lia.
  - constructor; simpl; try reflexivity.
    destruct (PrimFloat.ltb u _); auto.
  - reflexivity.
Qed.

Lemma competency_questions_spec grade comp (s : sim_state) :
  exists evs,
    extends s (competency_questions student_grade base_skill grade comp s) evs /\
    answers_from grade comp (current_time s) question_keys evs
      (current_time (competency_questions student_grade base_skill grade comp s)).
Proof.
  cbv [competency_questions Py.for_each fold_left question_keys].
  repeat match goal with
  | |- context [answer_question ?a ?b ?g ?c ?t ?q ?st] =>
      lazymatch st with
      | context [answer_question] => fail
      | _ =>
        let d := fresh "d" in let r := fresh "r" in
        let Hd := fresh "Hd" in let He := fresh "He" in
        let Ht := fresh "Ht" in let Hx := fresh "Hx" in
        destruct (answer_question_spec g c t q st) as (d & r & Hd & He & Ht & Hx);
        generalize dependent (answer_question a b g c t q st); intros
      end
  end.
  repeat match goal with
  | H : current_time _ = _ |- _ => first [rewrite H in * | rewrite H]; clear H
  end.
  eexists; split.
  - repeat (eapply extends_trans; [eassumption|]). apply extends_refl.
  - simpl. repeat (econstructor; [eassumption | eassumption |]).
    constructor.
Qed.

Lemma competency_loop_spec grade comps : forall s : sim_state,
  exists evs,
    extends s
      (Py.for_break comps (competency_step student_grade base_skill grade) s)
      evs /\
    comps_trace grade (current_time s) comps evs
      (current_time
         (Py.for_break comps (competency_step student_grade base_skill grade) s)).
Proof.
  induction comps as [|comp comps IH]; intros s; cbn [Py.for_break].
  - exists []; split; [apply extends_refl | constructor].
  - unfold competency_step at 1 3; unfold Py.total_seconds_between.
    set (s1 := {| responses := responses s; current_time := current_time s;
                  gen := gen s;
                  log := log s ++ [EvCheck grade comp (current_time s - start_time)] |}).
    assert (E1 : extends s s1 [EvCheck grade comp (current_time s - start_time)]).
    { split; cbn [log responses records s1]; [reflexivity | now rewrite app_nil_r]. }
    destruct (time_limit_seconds <=? current_time s - start_time) eqn:Hlim.
    + apply Z.leb_le in Hlim.
      eexists; split; [exact E1 | now constructor].
    + apply Z.leb_gt in Hlim.
      destruct (competency_questions_spec grade comp s1) as (e2 & E2 & A2).
      destruct (IH (competency_questions student_grade base_skill grade comp s1))
        as (e3 & E3 & A3).
      exists ([EvCheck grade comp (current_time s - start_time)] ++ e2 ++ e3).
      split.
      * eapply extends_trans; [exact E1|].
        eapply extends_trans; eassumption.
      * cbn [app]. eapply ct_run; eassumption.
Qed.

Lemma grade_loop_spec grades : forall s : sim_state,
  Forall (fun g => dict_get GRADE_COMPETENCIES g <> None) grades ->
  exists evs,
    extends s (Py.for_each grades (grade_step student_grade base_skill) s) evs /\
    grades_trace (current_time s) grades evs
      (current_time
         (Py.for_each grades (grade_step student_grade base_skill) s)).
Proof.
  unfold Py.for_each.
  induction grades as [|g grades IH]; intros s Hk; cbn [fold_left].
  - exists []; split; [apply extends_refl | constructor].
  - inversion Hk as [|? ? Hg Hk']; subst.
    unfold grade_step at 2 4.
    destruct (dict_get GRADE_COMPETENCIES g) as [comps|] eqn:Hd; [|congruence].
    destruct (competency_loop_spec g comps s) as (e1 & E1 & T1).
    destruct (IH (Py.for_break comps
                    (competency_step student_grade base_skill g) s) Hk')
      as (e2 & E2 & T2).
    exists (e1 ++ e2); split.
    + eapply extends_trans; eassumption.
    + eapply gt_grade; eassumption.
Qed.

Lemma all_grades_in_table :
  Forall (fun g => dict_get GRADE_COMPETENCIES g <> None) (Py.range 4 13).
Proof.
  change (Py.range 4 13) with [4; 5; 6; 7; 8; 9; 10; 11; 12].
  repeat constructor; discriminate.
Qed.

(** Every run of the simulator follows the trace semantics, and its
    [responses] are the records of its answer events. *)
Lemma simulate_run_trace (g : Py.rng) :
  let st := simulate_run student_grade base_skill g in
  grades_trace start_time (Py.range 4 13) (log st) (current_time st) /\
  responses st = records (log st).
Proof.
  destruct (grade_loop_spec (Py.range 4 13) (initial_state g) all_grades_in_table)
    as (evs & [HL HR] & HT).
  cbn [initial_state log responses current_time app] in HL, HR, HT.
  unfold simulate_run. cbv zeta. rewrite HL, HR. auto.
Qed.

End Refinement.

(* ================================================================= *)
(** ** Counting records and bounding the clock along a trace *)

Lemma competencies_of_grade (g : Z) (comps : list string) :
  dict_get GRADE_COMPETENCIES g = Some comps ->
  4 <= g <= 12 /\ List.length comps = 4%nat.
Proof.
  unfold GRADE_COMPETENCIES; cbn [dict_get].
  repeat match goal with
  | |- context [g =? ?k] => destruct (Z.eqb_spec g k); [subst|]
  end;
  intros H; inversion H; subst; (split; [lia | reflexivity]).
Qed.

Lemma answers_from_count grade comp t keys evs t' :
  answers_from grade comp t keys evs t' ->
  List.length (records evs) = List.length keys /\
  t + min_duration grade * Z.of_nat (List.length keys) <= t' /\
  t' <= t + max_duration grade * Z.of_nat (List.length keys).
Proof.
  induction 1 as [t | t q_type seq keys d r evs t' Hd He Hrec IH].
  - cbn; lia.
  - destruct IH as (IH1 & IH2 & IH3).
    cbn [records List.length]. rewrite !Nat2Z.inj_succ, !Z.mul_succ_r. lia.
Qed.

Lemma comps_trace_count grade t comps evs t' :
  comps_trace grade t comps evs t' ->
  0 <= min_duration grade ->
  Z.of_nat (List.length (records evs)) <= 6 * Z.of_nat (List.length comps) /\
  t <= t' /\
  Z.min (start_time + time_limit_seconds)
        (t + 6 * min_duration grade * Z.of_nat (List.length comps)) <= t'.
Proof.
  intros H Hm.
  induction H as [t | t comp comps Hlim
                 | t comp comps evs t1 evs' t2 Hlim Ha Hc IH].
  - cbn; lia.
  - cbn [records List.length]. lia.
  - destruct (answers_from_count _ _ _ _ _ _ Ha) as (A1 & A2 & A3).
    cbn [List.length question_keys] in A1, A2, A3.
    destruct IH as (I1 & I2 & I3).
    cbn [records]. rewrite records_app, length_app, A1.
    cbn [List.length]. rewrite !Nat2Z.inj_succ, Nat2Z.inj_add, Z.mul_succ_r.
    change (Z.of_nat 6) with 6 in *. lia.
Qed.

(** When the clock cannot stay under the budget through all but the last
    competency of a grade, the last one is never started. *)
Lemma comps_trace_last_blocked grade comps : forall t comp evs t',
  comps_trace grade t (comp :: comps) evs t' ->
  0 <= min_duration grade ->
  start_time + time_limit_seconds
    <= t + 6 * min_duration grade * Z.of_nat (List.length comps) ->
  Z.of_nat (List.length (records evs)) <= 6 * Z.of_nat (List.length comps).
Proof.
  induction comps as [|c2 comps IH]; intros t comp evs t' H Hm Hb.
  - inversion H; subst.
    + cbn; lia.
    + cbn [List.length] in Hb. lia.
  - inversion H as [| |? ? ? e1 t1 e2 ? Hlim Ha Hc]; subst.
    + cbn [records List.length]. lia.
    + destruct (answers_from_count _ _ _ _ _ _ Ha) as (A1 & A2 & A3).
      cbn [List.length question_keys] in A1, A2, A3.
      cbn [List.length] in Hb. rewrite Nat2Z.inj_succ, Z.mul_succ_r in Hb.
      change (Z.of_nat 6) with 6 in *.
      assert (I := IH _ _ _ _ Hc Hm ltac:(lia)).
      cbn [records]. rewrite records_app, length_app, A1, Nat2Z.inj_add.
      cbn [List.length]. rewrite !Nat2Z.inj_succ. cbn [List.length Z.of_nat]. lia.
Qed.

Lemma grades_trace_count t grades evs t' :
  grades_trace t grades evs t' ->
  Z.of_nat (List.length (records evs)) <= 24 * Z.of_nat (List.length grades) /\
  t <= t' /\
  Z.min (start_time + time_limit_seconds) (t + least_duration grades) <= t'.
Proof.
  induction 1 as [t | t g grades comps evs t1 evs' t2 Hd Hc Hg IH].
  - cbn; lia.
  - destruct (competencies_of_grade _ _ Hd) as [Hr Hl].
    assert (Hm : 0 <= min_duration g) by (unfold min_duration; lia).
    destruct (comps_trace_count _ _ _ _ _ Hc Hm) as (C1 & C2 & C3).
    rewrite Hl in C1, C3. change (Z.of_nat 4) with 4 in *.
    destruct IH as (I1 & I2 & I3).
    rewrite records_app, length_app, Nat2Z.inj_add.
    cbn [List.length least_duration fold_right]. rewrite Nat2Z.inj_succ.
    fold (least_duration grades). lia.
Qed.

Lemma grades_trace_app grades1 : forall t grades2 evs t',
  grades_trace t (grades1 ++ grades2) evs t' ->
  exists evs1 tm evs2,
    evs = evs1 ++ evs2 /\
    grades_trace t grades1 evs1 tm /\ grades_trace tm grades2 evs2 t'.
Proof.
  induction grades1 as [|g grades1 IH]; intros t grades2 evs t' H.
  - exists [], t, evs; repeat split; [constructor | exact H].
  - cbn [app] in H.
    inversion H as [|? ? ? comps e1 t1 e2 ? Hd Hc Hg]; subst.
    destruct (IH _ _ _ _ Hg) as (a & tm & b & -> & G1 & G2).
    exists (e1 ++ a), tm, b; repeat split.
    + now rewrite app_assoc.
    + econstructor; eassumption.
    + exact G2.
Qed.

Lemma trace_at_most_210 evs t' :
  grades_trace start_time (Py.range 4 13) evs t' ->
  (List.length (records evs) <= 210)%nat.
Proof.
  change (Py.range 4 13) with ([4; 5; 6; 7; 8; 9; 10; 11] ++ [12]).
  intros H. destruct (grades_trace_app _ _ _ _ _ H) as (a & tm & b & -> & G1 & G2).
  destruct (grades_trace_count _ _ _ _ G1) as (C1 & _ & C3).
  change (least_duration [4; 5; 6; 7; 8; 9; 10; 11]) with 4896 in C3.
  inversion G2 as [|? ? ? comps e1 t1 e2 ? Hd Hc Hg]; subst.
  inversion Hg; subst. rewrite app_nil_r.
  cbn in Hd. inversion Hd; subst comps.
  assert (B := comps_trace_last_blocked _ _ _ _ _ _ Hc).
  change (min_duration 12) with 39 in B.
  cbn [List.length] in B, C1.
  unfold time_limit_seconds in *.
  rewrite records_app, length_app. lia.
Qed.

Lemma trace_starts_with_grade_4 evs t' grades :
  grades_trace start_time (4 :: grades) evs t' ->
  (6 <= List.length (records evs))%nat.
Proof.
  intros H. inversion H as [|? ? ? comps e1 t1 e2 ? Hd Hc Hg]; subst.
  cbn in Hd. inversion Hd; subst comps.
  inversion Hc as [|? ? ? Hlim|? ? ? a ta b ? Hlim Ha Hc']; subst.
  - unfold time_limit_seconds in Hlim. lia.
  - destruct (answers_from_count _ _ _ _ _ _ Ha) as (A1 & _).
    rewrite records_app. cbn [records].
    rewrite records_app, !length_app, A1. cbn. lia.
Qed.

(* ================================================================= *)
(** ** Which questions a trace answers *)

Lemma subseq_refl {A} (l : list A) : subseq l l.
Proof. induction l; constructor; assumption. Qed.

Lemma subseq_app {A} (l1 l1' l2 l2' : list A) :
  subseq l1 l1' -> subseq l2 l2' -> subseq (l1 ++ l2) (l1' ++ l2').
Proof.
  intros H1 H2; induction H1; cbn [app].
  - induction l as [|x l IH]; cbn [app]; [assumption | now constructor].
  - now constructor.
  - now constructor.
Qed.

Lemma subseq_In {A} (l l' : list A) (x : A) : subseq l l' -> In x l -> In x l'.
Proof.
  induction 1; cbn [In]; intros Hx; [contradiction | auto | ].
  destruct Hx; auto.
Qed.

Lemma subseq_NoDup {A} (l l' : list A) : subseq l l' -> NoDup l' -> NoDup l.
Proof.
  induction 1 as [l | x l l' H IH | x l l' H IH]; intros Hn.
  - constructor.
  - inversion Hn; auto.
  - inversion Hn as [|? ? Hx Hn']; subst. constructor; auto.
    intros Hin; apply Hx. eapply subseq_In; eassumption.
Qed.

Lemma subseq_map {A B} (f : A -> B) (l l' : list A) :
  subseq l l' -> subseq (map f l) (map f l').
Proof. induction 1; cbn [map]; constructor; assumption. Qed.

Lemma distinct_NoDup (l : list string) : distinct l = true -> NoDup l.
Proof.
  induction l as [|x l IH]; cbn [distinct]; intros H; constructor.
  - apply andb_prop in H as [H _]. intros Hin.
    apply negb_true_iff in H.
    assert (E : existsb (String.eqb x) l = true).
    { apply existsb_exists. exists x; split; [assumption | apply String.eqb_refl]. }
    congruence.
  - apply andb_prop in H as [_ H]. auto.
Qed.

Lemma all_ids_distinct : NoDup (map id_of_key all_keys).
Proof. apply distinct_NoDup. vm_compute. reflexivity. Qed.

Lemma all_keys_count : List.length all_keys = 216%nat.
Proof. reflexivity. Qed.

Lemma answered_keys_app (l1 l2 : list event) :
  answered_keys (l1 ++ l2) = answered_keys l1 ++ answered_keys l2.
Proof.
  induction l1 as [|e l1 IH]; cbn [app answered_keys]; [reflexivity|].
  destruct e; cbn [app]; rewrite IH; reflexivity.
Qed.

Lemma answers_from_keys grade comp t keys evs t' :
  answers_from grade comp t keys evs t' ->
  answered_keys evs = map (fun ts => (grade, comp, fst ts, snd ts)) keys /\
  map question_id (records evs) = map id_of_key (answered_keys evs) /\
  Forall (fun r => grade_tag r = ("Grade-" ++ Py.str grade)%string) (records evs) /\
  Forall (fun e => ~ failing e) evs.
Proof.
  induction 1 as [t | t q_type seq keys d r evs t' Hd He Hrec IH].
  - cbn; auto.
  - destruct IH as (I1 & I2 & I3 & I4).
    cbn [answered_keys records map fst snd].
    split; [now rewrite I1|]. split; [|split].
    + rewrite I2. cbn [id_of_key]. now rewrite (em_id _ _ _ _ _ _ He).
    + constructor; [apply (em_grade _ _ _ _ _ _ He) | assumption].
    + constructor; [cbn; tauto | assumption].
Qed.

Lemma comps_trace_keys grade t comps evs t' :
  comps_trace grade t comps evs t' ->
  subseq (answered_keys evs) (flat_map (competency_keys grade) comps) /\
  map question_id (records evs) = map id_of_key (answered_keys evs) /\
  Forall (fun r => grade_tag r = ("Grade-" ++ Py.str grade)%string) (records evs) /\
  (Forall (fun e => ~ failing e) evs ->
     answered_keys evs = flat_map (competency_keys grade) comps).
Proof.
  induction 1 as [t | t comp comps Hlim
                 | t comp comps evs t1 evs' t2 Hlim Ha Hc IH].
  - cbn; repeat split; auto; constructor.
  - cbn [answered_keys records map]; repeat split; auto; try constructor.
    intros Hl. inversion Hl as [|? ? Hf _]; subst. cbn in Hf.
    unfold Py.total_seconds_between in *. contradiction.
  - destruct (answers_from_keys _ _ _ _ _ _ Ha) as (A1 & A2 & A3 & A4).
    destruct IH as (I1 & I2 & I3 & I4).
    cbn [answered_keys records flat_map].
    rewrite answered_keys_app, records_app, !map_app, A2, I2.
    repeat split; auto.
    + apply subseq_app; [|assumption].
      rewrite A1. apply subseq_refl.
    + apply Forall_app; auto.
    + intros Hl. inversion Hl as [|? ? _ Hl']; subst.
      apply Forall_app in Hl' as [_ Hl2].
      rewrite (I4 Hl2), A1. reflexivity.
Qed.

Lemma grades_trace_keys t grades evs t' :
  grades_trace t grades evs t' ->
  subseq (answered_keys evs) (flat_map grade_keys grades) /\
  map question_id (records evs) = map id_of_key (answered_keys evs).
Proof.
  induction 1 as [t | t g grades comps evs t1 evs' t2 Hd Hc Hg IH].
  - cbn; split; [constructor | reflexivity].
  - destruct (comps_trace_keys _ _ _ _ _ Hc) as (C1 & C2 & _).
    destruct IH as (I1 & I2).
    rewrite answered_keys_app, records_app, !map_app, C2, I2.
    split; [|reflexivity].
    cbn [flat_map]. apply subseq_app; [|assumption].
    unfold grade_keys. rewrite Hd. assumption.
Qed.

(* ================================================================= *)
(** ** The records of one grade *)

Lemma grade_tag_eqb (g g' : Z) :
  4 <= g <= 12 -> 4 <= g' <= 12 ->
  String.eqb ("Grade-" ++ Py.str g') ("Grade-" ++ Py.str g) = (g' =? g).
Proof.
  intros H H'.
  assert (E : In g (Py.range 4 13)).
  { change (Py.range 4 13) with [4; 5; 6; 7; 8; 9; 10; 11; 12]. cbn [In]. lia. }
  assert (E' : In g' (Py.range 4 13)).
  { change (Py.range 4 13) with [4; 5; 6; 7; 8; 9; 10; 11; 12]. cbn [In]. lia. }
  change (Py.range 4 13) with [4; 5; 6; 7; 8; 9; 10; 11; 12] in E, E'.
  cbn [In] in E, E'.
  repeat (destruct E as [<-|E]; [|]); try contradiction;
  repeat (destruct E' as [<-|E']; [|]); try contradiction; reflexivity.
Qed.

Lemma records_of_grade_app g (l1 l2 : list response) :
  records_of_grade g (l1 ++ l2) = records_of_grade g l1 ++ records_of_grade g l2.
Proof. apply filter_app. Qed.

Lemma records_of_grade_same g g' (rs : list response) :
  4 <= g <= 12 -> 4 <= g' <= 12 ->
  Forall (fun r => grade_tag r = ("Grade-" ++ Py.str g')%string) rs ->
  records_of_grade g rs = if g' =? g then rs else [].
Proof.
  intros Hg Hg'. induction 1 as [|r rs Hr Hrs IH]; cbn [records_of_grade filter].
  - now destruct (g' =? g).
  - fold (records_of_grade g rs). rewrite IH, Hr, grade_tag_eqb by assumption.
    now destruct (g' =? g).
Qed.

Lemma comps_trace_checks grade t comps evs t' :
  comps_trace grade t comps evs t' ->
  forall g c e, In (EvCheck g c e) evs -> g = grade.
Proof.
  induction 1 as [t | t comp comps Hlim
                 | t comp comps evs t1 evs' t2 Hlim Ha Hc IH];
    intros g c e Hin.
  - destruct Hin.
  - destruct Hin as [Hin|[]]; now inversion Hin.
  - destruct Hin as [Hin|Hin]; [now inversion Hin|].
    apply in_app_or in Hin as [Hin|Hin]; [|eauto].
    destruct (answers_from_keys _ _ _ _ _ _ Ha) as (_ & _ & _ & _).
    exfalso. clear - Ha Hin.
    induction Ha; cbn [In] in Hin; [assumption|].
    destruct Hin as [Hin|Hin]; [discriminate | auto].
Qed.

Lemma grades_trace_other_grade g t grades evs t' :
  grades_trace t grades evs t' ->
  4 <= g <= 12 -> ~ In g grades ->
  records_of_grade g (records evs) = [].
Proof.
  intros H Hg. induction H as [t | t g' grades comps evs t1 evs' t2 Hd Hc Hr IH];
    intros Hn.
  - reflexivity.
  - destruct (competencies_of_grade _ _ Hd) as [Hg' _].
    destruct (comps_trace_keys _ _ _ _ _ Hc) as (_ & _ & Ht & _).
    rewrite records_app, records_of_grade_app.
    rewrite (records_of_grade_same g g' _ Hg Hg' Ht).
    destruct (Z.eqb_spec g' g) as [->|Hne]; [exfalso; apply Hn; now left|].
    rewrite IH; [reflexivity|]. intros Hin; apply Hn; now right.
Qed.

Lemma grades_trace_grade g t grades evs t' :
  grades_trace t grades evs t' ->
  NoDup grades -> In g grades ->
  (forall c e, In (EvCheck g c e) evs -> e < time_limit_seconds) ->
  map question_id (records_of_grade g (records evs))
    = map id_of_key (grade_keys g).
Proof.
  induction 1 as [t | t g' grades comps evs t1 evs' t2 Hd Hc Hr IH];
    intros Hnd Hin Hlive.
  - destruct Hin.
  - destruct (competencies_of_grade _ _ Hd) as [Hg' _].
    destruct (comps_trace_keys _ _ _ _ _ Hc) as (_ & Hids & Ht & Hfull).
    inversion Hnd as [|? ? Hnotin Hnd']; subst.
    rewrite records_app, records_of_grade_app.
    destruct (Z.eq_dec g' g) as [->|Hne].
    + rewrite (records_of_grade_same g g _ Hg' Hg' Ht), Z.eqb_refl.
      rewrite (grades_trace_other_grade g _ _ _ _ Hr Hg' Hnotin), app_nil_r.
      rewrite Hids, Hfull; [unfold grade_keys; now rewrite Hd|].
      apply Forall_forall. intros [g0 c e| ] Hev; cbn [failing]; [|tauto].
      assert (g0 = g) by (eapply comps_trace_checks; eassumption). subst g0.
      apply Z.lt_nge. apply (Hlive c). apply in_or_app; now left.
    + destruct Hin as [Hin|Hin]; [contradiction|].
      assert (Hg : 4 <= g <= 12).
      { clear - Hr Hin. induction Hr as [|? ? ? ? ? ? ? ? Hd' ? ? IH'];
          [destruct Hin|].
        destruct Hin as [<-|Hin]; [|auto].
        now destruct (competencies_of_grade _ _ Hd'). }
      rewrite (records_of_grade_same g g' _ Hg Hg' Ht).
      destruct (Z.eqb_spec g' g); [contradiction|]. cbn [app].
      apply IH; auto.
      intros c e He. apply (Hlive c). apply in_or_app; now right.
Qed.

(* ================================================================= *)
(** ** What follows the exhaustion of the budget *)

Lemma records_idle_grades e grades : records (idle_grades e grades) = [].
Proof. induction grades; cbn; auto. Qed.

Lemma comps_trace_exhausted grade t comp comps evs t' :
  comps_trace grade t (comp :: comps) evs t' ->
  time_limit_seconds <= t - start_time ->
  evs = [EvCheck grade comp (t - start_time)] /\ t' = t.
Proof.
  intros H Hl. inversion H; subst; [auto | lia].
Qed.

Lemma grades_trace_exhausted t grades evs t' :
  grades_trace t grades evs t' ->
  time_limit_seconds <= t - start_time ->
  evs = idle_grades (t - start_time) grades /\ t' = t.
Proof.
  induction 1 as [t | t g grades comps evs t1 evs' t2 Hd Hc Hr IH]; intros Hl.
  - auto.
  - destruct (competencies_of_grade _ _ Hd) as [_ Hlen].
    destruct comps as [|comp comps]; [discriminate|].
    destruct (comps_trace_exhausted _ _ _ _ _ _ Hc Hl) as [-> ->].
    destruct (IH Hl) as [-> ->]. split; [|reflexivity].
    cbn [idle_grades map app]. unfold first_competency. now rewrite Hd.
Qed.

Lemma comps_trace_shape grade t comps evs t' :
  comps_trace grade t comps evs t' ->
  Forall (fun e => ~ failing e) evs \/
  exists l comp,
    evs = l ++ [EvCheck grade comp (t' - start_time)] /\
    Forall (fun e => ~ failing e) l /\
    time_limit_seconds <= t' - start_time.
Proof.
  induction 1 as [t | t comp comps Hlim
                 | t comp comps evs t1 evs' t2 Hlim Ha Hc IH].
  - left; constructor.
  - right. exists [], comp. repeat split; auto.
  - destruct (answers_from_keys _ _ _ _ _ _ Ha) as (_ & _ & _ & Hlive).
    assert (Hchk : ~ failing (EvCheck grade comp (t - start_time)))
      by (cbn [failing]; lia).
    destruct IH as [IH | (l & c & -> & Hl & Hex)].
    + left. constructor; [assumption|]. apply Forall_app; auto.
    + right. exists (EvCheck grade comp (t - start_time) :: evs ++ l), c.
      repeat split; auto.
      * cbn [app]. now rewrite app_assoc.
      * constructor; [assumption|]. apply Forall_app; auto.
Qed.

Lemma grades_trace_shape t grades evs t' :
  grades_trace t grades evs t' ->
  Forall (fun e => ~ failing e) evs \/
  exists l g comp e before after,
    grades = before ++ g :: after /\
    evs = l ++ EvCheck g comp e :: idle_grades e after /\
    Forall (fun e => ~ failing e) l /\
    time_limit_seconds <= e.
Proof.
  induction 1 as [t | t g grades comps evs t1 evs' t2 Hd Hc Hr IH].
  - left; constructor.
  - destruct (comps_trace_shape _ _ _ _ _ Hc) as [Hlive | (l & c & -> & Hl & Hex)].
    + destruct IH as [IH | (l & g0 & c & e & before & after & -> & -> & Hl & Hex)].
      * left. apply Forall_app; auto.
      * right. exists (evs ++ l), g0, c, e, (g :: before), after.
        repeat split; auto.
        -- now rewrite app_assoc.
        -- apply Forall_app; auto.
    + right. destruct (grades_trace_exhausted _ _ _ _ Hr Hex) as [-> _].
      exists l, g, c, (t1 - start_time), [], grades.
      repeat split; auto. now rewrite <- app_assoc.
Qed.

Lemma split_at_first (P : event -> Prop) l : forall x0 tl pre x post,
  l ++ x0 :: tl = pre ++ x :: post ->
  Forall (fun e => ~ P e) l -> P x ->
  (pre = l /\ x = x0 /\ post = tl) \/
  exists mid, pre = l ++ x0 :: mid /\ tl = mid ++ x :: post.
Proof.
  induction l as [|y l IH]; intros x0 tl pre x post E Hl Hx.
  - destruct pre as [|y pre]; cbn [app] in E; inversion E; subst.
    + left; auto.
    + right. exists pre; auto.
  - inversion Hl as [|? ? Hy Hl']; subst.
    destruct pre as [|y' pre]; cbn [app] in E; inversion E; subst.
    + contradiction.
    + destruct (IH _ _ _ _ _ H1 Hl' Hx) as [(-> & -> & ->) | (mid & -> & ->)].
      * left; auto.
      * right. exists mid; auto.
Qed.

Lemma grades_after (before after : list Z) (g : Z) :
  Py.range 4 13 = before ++ g :: after -> after = Py.range (g + 1) 13.
Proof.
  change (Py.range 4 13) with [4; 5; 6; 7; 8; 9; 10; 11; 12].
  intros E.
  do 10 (destruct before as [|? before]; cbn [app] in E;
         [inversion E; subst; reflexivity | inversion E; subst; clear E;
          match goal with H : _ = before ++ _ |- _ => rename H into E
          | _ => idtac end]).
Qed.

Lemma trace_after_exhaustion evs t' pre g comp e post :
  grades_trace start_time (Py.range 4 13) evs t' ->
  evs = pre ++ EvCheck g comp e :: post ->
  time_limit_seconds <= e ->
  post = idle_grades e (Py.range (g + 1) 13) /\ records evs = records pre.
Proof.
  intros H E He.
  assert (R : post = idle_grades e (Py.range (g + 1) 13)).
  { destruct (grades_trace_shape _ _ _ _ H)
      as [Hlive | (l & g0 & c0 & e0 & before & after & Hg & Hevs & Hl & Hex)].
    - rewrite E in Hlive. apply Forall_app in Hlive as [_ Hlive].
      inversion Hlive as [|? ? Hf _]; subst. cbn [failing] in Hf. contradiction.
    - rewrite Hevs in E.
      destruct (split_at_first failing _ _ _ _ _ _ E Hl He)
        as [(_ & Hx & ->) | (mid & _ & Hmid)].
      + inversion Hx; subst. f_equal. eapply grades_after; eassumption.
      + unfold idle_grades in Hmid.
        apply map_eq_app in Hmid as (la & lb & -> & _ & Hb).
        destruct lb as [|g1 lb]; [discriminate|].
        cbn [map] in Hb. inversion Hb; subst.
        unfold idle_grades. f_equal.
        apply (grades_after (before ++ g0 :: la)).
        rewrite Hg, <- app_assoc. reflexivity. }
  split; [exact R|].
  rewrite E, R, records_app. cbn [records].
  now rewrite records_idle_grades, app_nil_r.
Qed.

(* ================================================================= *)
(** ** The clock never runs backwards *)

Lemma clock_chain_app (e1 : list event) : forall t e2,
  clock_chain t e1 -> clock_chain (clock_after t e1) e2 ->
  clock_chain t (e1 ++ e2).
Proof.
  induction e1 as [|e e1 IH]; intros t e2 H1 H2; cbn [app]; [exact H2|].
  destruct e as [g c el | g c q s d now r]; cbn [clock_chain clock_after] in *.
  - destruct H1 as [? H1]; split; [assumption | now apply IH].
  - destruct H1 as (? & ? & ? & ? & H1).
    split; [assumption|]. split; [assumption|]. split; [assumption|].
    split; [assumption | now apply IH].
Qed.

Lemma clock_after_app (e1 : list event) : forall t e2,
  clock_after t (e1 ++ e2) = clock_after (clock_after t e1) e2.
Proof.
  induction e1 as [|e e1 IH]; intros t e2; cbn [app clock_after]; [reflexivity|].
  destruct e; apply IH.
Qed.

Lemma answer_clocks_app (e1 e2 : list event) :
  answer_clocks (e1 ++ e2) = answer_clocks e1 ++ answer_clocks e2.
Proof.
  induction e1 as [|e e1 IH]; cbn [app answer_clocks]; [reflexivity|].
  destruct e; cbn [app]; now rewrite IH.
Qed.

Lemma answers_from_chain grade comp t keys evs t' :
  answers_from grade comp t keys evs t' ->
  4 <= grade <= 12 ->
  clock_chain t evs /\ clock_after t evs = t' /\
  Forall (fun c => c <= t + 54 * Z.of_nat (List.length keys)) (answer_clocks evs).
Proof.
  intros H Hg.
  induction H as [t | t q_type seq keys d r evs t' Hd He Hrec IH].
  - cbn; auto.
  - destruct IH as (I1 & I2 & I3).
    unfold min_duration, max_duration in Hd.
    cbn [clock_chain clock_after answer_clocks List.length].
    rewrite Nat2Z.inj_succ, Z.mul_succ_r.
    repeat split; auto; try lia.
    + exists (d - 3 * (grade - 4)). lia.
    + apply (em_time _ _ _ _ _ _ He).
    + constructor; [lia|].
      eapply Forall_impl; [|exact I3]. cbn beta. intros; lia.
Qed.

Lemma comps_trace_chain grade t comps evs t' :
  comps_trace grade t comps evs t' ->
  4 <= grade <= 12 ->
  clock_chain t evs /\ clock_after t evs = t' /\
  Forall (fun c => c <= latest_answer) (answer_clocks evs).
Proof.
  intros H Hg.
  induction H as [t | t comp comps Hlim
                 | t comp comps evs t1 evs' t2 Hlim Ha Hc IH].
  - cbn; auto.
  - cbn; auto.
  - destruct (answers_from_chain _ _ _ _ _ _ Ha Hg) as (A1 & A2 & A3).
    destruct IH as (I1 & I2 & I3).
    cbn [clock_chain clock_after answer_clocks].
    rewrite clock_after_app, answer_clocks_app, A2.
    repeat split; auto.
    + apply clock_chain_app; [assumption | now rewrite A2].
    + apply Forall_app; split; [|assumption].
      eapply Forall_impl; [|exact A3]. cbn beta.
      unfold latest_answer, time_limit_seconds in *.
      cbn [List.length question_keys]. intros; lia.
Qed.

Lemma grades_trace_chain t grades evs t' :
  grades_trace t grades evs t' ->
  clock_chain t evs /\ clock_after t evs = t' /\
  Forall (fun c => c <= latest_answer) (answer_clocks evs).
Proof.
  induction 1 as [t | t g grades comps evs t1 evs' t2 Hd Hc Hr IH].
  - cbn; auto.
  - destruct (competencies_of_grade _ _ Hd) as [Hg _].
    destruct (comps_trace_chain _ _ _ _ _ Hc Hg) as (C1 & C2 & C3).
    destruct IH as (I1 & I2 & I3).
    rewrite clock_after_app, answer_clocks_app, C2.
    repeat split; auto.
    + apply clock_chain_app; [assumption | now rewrite C2].
    + apply Forall_app; auto.
Qed.

Lemma clock_chain_sorted (evs : list event) : forall t,
  clock_chain t evs ->
  StronglySorted Z.le (answer_clocks evs) /\
  Forall (fun c => t <= c) (answer_clocks evs) /\
  map timestamp (records evs) = map Py.isoformat (answer_clocks evs).
Proof.
  induction evs as [|e evs IH]; intros t H.
  - cbn; repeat split; constructor.
  - destruct e as [g c el | g c q s d now r];
      cbn [clock_chain answer_clocks records map] in *.
    + destruct H as [_ H]. auto.
    + destruct H as (Hg & (k & Hk & ->) & -> & Hts & H).
      destruct (IH _ H) as (I1 & I2 & I3).
      repeat split.
      * constructor; assumption.
      * constructor; [lia|]. eapply Forall_impl; [|exact I2]. cbn beta; lia.
      * now rewrite Hts, I3.
Qed.

(** *** ISO timestamps of one morning are ordered like their moments *)

Lemma str_le_refl (s : string) : str_le s s.
Proof. destruct (String.leb_total s s); assumption. Qed.

Lemma str_le_trans (a : string) : forall b c,
  str_le a b -> str_le b c -> str_le a c.
Proof.
  unfold str_le, String.leb.
  induction a as [|x a IH]; intros [|y b] [|z c]; cbn [String.compare];
    try congruence.
  unfold Ascii.compare.
  destruct (N.compare_spec (N_of_ascii x) (N_of_ascii y)) as [E1|E1|E1];
  destruct (N.compare_spec (N_of_ascii y) (N_of_ascii z)) as [E2|E2|E2];
  destruct (N.compare_spec (N_of_ascii x) (N_of_ascii z)) as [E3|E3|E3];
    try congruence; try lia.
  apply IH.
Qed.

Lemma isoformat_steps :
  forallb (fun i => String.leb (Py.isoformat (start_time + Z.of_nat i))
                               (Py.isoformat (start_time + Z.of_nat i + 1)))
          (seq 0 (Z.to_nat 5723)) = true.
Proof. vm_compute. reflexivity. Qed.

Lemma isoformat_monotone (t t' : Py.datetime) :
  start_time <= t -> t <= t' -> t' <= latest_answer ->
  str_le (Py.isoformat t) (Py.isoformat t').
Proof.
  intros H1 H2 H3.
  replace t' with (t + Z.of_nat (Z.to_nat (t' - t))) in * by lia.
  generalize dependent (Z.to_nat (t' - t)). intros n _ H3.
  induction n as [|n IH].
  - rewrite Z.add_0_r. apply str_le_refl.
  - rewrite Nat2Z.inj_succ in *.
    eapply str_le_trans; [apply IH; lia|].
    pose proof isoformat_steps as S.
    rewrite forallb_forall in S.
    specialize (S (Z.to_nat (t + Z.of_nat n - start_time))).
    unfold latest_answer in H3.
    rewrite Z2Nat.id in S by lia.
    replace (start_time + (t + Z.of_nat n - start_time)) with (t + Z.of_nat n)
      in S by lia.
    replace (t + Z.succ (Z.of_nat n)) with (t + Z.of_nat n + 1) by lia.
    apply S. apply in_seq. lia.
Qed.

Lemma isoformat_sorted (l : list Py.datetime) :
  StronglySorted Z.le l ->
  Forall (fun c => start_time <= c <= latest_answer) l ->
  StronglySorted str_le (map Py.isoformat l).
Proof.
  induction 1 as [|c l Hs IH Hc]; intros Hr; cbn [map]; constructor.
  - apply IH. now inversion Hr.
  - inversion Hr as [|? ? Hc0 Hl]; subst.
    apply Forall_map. rewrite Forall_forall in *.
    intros x Hx. apply isoformat_monotone; [lia | auto | apply Hl, Hx].
Qed.

(* ================================================================= *)
(** ** Where the budget is tested *)

Lemma checks_between_app (e1 : list event) : forall n e2,
  checks_between_competencies n e1 ->
  checks_between_competencies (n + List.length (records e1)) e2 ->
  checks_between_competencies n (e1 ++ e2).
Proof.
  induction e1 as [|e e1 IH]; intros n e2 H1 H2; cbn [app].
  - cbn in H2. now rewrite Nat.add_0_r in H2.
  - destruct e; cbn [checks_between_competencies records List.length] in *.
    + destruct H1; split; auto.
    + apply IH; [assumption|]. now rewrite Nat.add_succ_l, <- Nat.add_succ_r.
Qed.

Lemma answers_from_between grade comp t keys evs t' :
  answers_from grade comp t keys evs t' ->
  forall n, checks_between_competencies n evs.
Proof.
  induction 1; intros n; cbn [checks_between_competencies]; auto.
Qed.

Lemma comps_trace_between grade t comps evs t' :
  comps_trace grade t comps evs t' ->
  forall n, (exists k, n = (6 * k)%nat) ->
  checks_between_competencies n evs /\
  exists k, (n + List.length (records evs) = 6 * k)%nat.
Proof.
  induction 1 as [t | t comp comps Hlim
                 | t comp comps evs t1 evs' t2 Hlim Ha Hc IH];
    intros n [k Hk].
  - cbn; split; [trivial | exists k; lia].
  - cbn; split; [split; [exists k; lia | trivial] | exists k; lia].
  - destruct (answers_from_count _ _ _ _ _ _ Ha) as (A1 & _).
    cbn [List.length question_keys] in A1.
    destruct (IH (n + 6)%nat) as (I1 & k' & I2); [exists (S k); lia|].
    cbn [checks_between_competencies records].
    rewrite records_app, length_app, A1. split; [split|].
    + exists k; lia.
    + apply checks_between_app;
        [eapply answers_from_between; eassumption | now rewrite A1].
    + exists k'. lia.
Qed.

Lemma grades_trace_between t grades evs t' :
  grades_trace t grades evs t' ->
  forall n, (exists k, n = (6 * k)%nat) ->
  checks_between_competencies n evs /\
  exists k, (n + List.length (records evs) = 6 * k)%nat.
Proof.
  induction 1 as [t | t g grades comps evs t1 evs' t2 Hd Hc Hr IH];
    intros n Hn.
  - cbn; split; [trivial|]. destruct Hn as [k ->]. exists k; lia.
  - destruct (comps_trace_between _ _ _ _ _ Hc n Hn) as (C1 & C2).
    destruct (IH _ C2) as (I1 & k & I2).
    rewrite records_app, length_app. split.
    + now apply checks_between_app.
    + exists k. lia.
Qed.

Lemma grade_untruncated_spec grade evs :
  grade_untruncated grade evs = true ->
  forall comp e, In (EvCheck grade comp e) evs -> e < time_limit_seconds.
Proof.
  unfold grade_untruncated. rewrite forallb_forall.
  intros H comp e Hin. specialize (H _ Hin). cbn beta iota in H.
  rewrite Z.eqb_refl in H. cbn [negb orb] in H. now apply Z.ltb_lt.
Qed.

Lemma NoDup_map_injective {A B} (f : A -> B) (l : list A) :
  NoDup (map f l) ->
  forall x y, In x l -> In y l -> f x = f y -> x = y.
Proof.
  induction l as [|a l IH]; cbn [map]; intros Hn x y Hx Hy E; [destruct Hx|].
  inversion Hn as [|? ? Ha Hn']; subst.
  destruct Hx as [<-|Hx], Hy as [<-|Hy]; auto.
  - exfalso; apply Ha. rewrite E. now apply in_map.
  - exfalso; apply Ha. rewrite <- E. now apply in_map.
Qed.

Lemma grade_keys_ids (grade : Z) (comps : list string) :
  dict_get GRADE_COMPETENCIES grade = Some comps ->
  map id_of_key (grade_keys grade) = flat_map (six_ids grade) comps.
Proof.
  intros H. unfold grade_keys. rewrite H. clear H.
  induction comps as [|c comps IH]; cbn [flat_map map]; [reflexivity|].
  rewrite map_app, IH. reflexivity.
Qed.

(* ================================================================= *)
(** ** Floating-point comparisons *)

Lemma float_ltb_leb (x y : float) :
  PrimFloat.ltb x y = true -> PrimFloat.leb x y = true.
Proof.
  rewrite ltb_spec, leb_spec. unfold SFltb, SFleb.
  destruct (SFcompare (Prim2SF x) (Prim2SF y)) as [[| |]|]; congruence.
Qed.

Lemma clamp_probability_range (p : float) :
  PrimFloat.leb 0.15 (clamp_probability p) = true /\
  PrimFloat.leb (clamp_probability p) 0.98 = true.
Proof.
  unfold clamp_probability, Py.max, Py.min.
  destruct (PrimFloat.ltb p 0.98) eqn:Hhi.
  - destruct (PrimFloat.ltb 0.15 p) eqn:Hlo.
    + split; apply float_ltb_leb; assumption.
    + split; reflexivity.
  - split; reflexivity.
Qed.

Lemma clamp_probability_inside (p : float) :
  PrimFloat.ltb 0.15 p = true -> PrimFloat.ltb p 0.98 = true ->
  clamp_probability p = p.
Proof.
  intros Hlo Hhi. unfold clamp_probability, Py.max, Py.min.
  now rewrite Hhi, Hlo.
Qed.

(* ================================================================= *)
(** ** Decimal texts *)

Lemma to_int_not_nil (k : Z) : Z.to_int k <> Decimal.Pos Decimal.Nil.
Proof.
  intros E. pose proof (DecimalZ.to_of (Z.to_int k)) as H.
  rewrite DecimalZ.of_to in H. rewrite E in H. discriminate H.
Qed.

Lemma str_nonneg_digits (k : Z) :
  0 <= k ->
  exists u, NilEmpty.uint_of_string (Py.str k) = Some u /\
            Z.of_int (Decimal.Pos u) = k /\
            exists c s, Py.str k = String c s /\ c <> "-"%char.
Proof.
  intros Hk. unfold Py.str.
  pose proof (DecimalZ.of_to k) as Hof.
  pose proof (to_int_not_nil k) as Hnil.
  destruct (Z.to_int k) as [u|u] eqn:E.
  - assert (Hu : u <> Decimal.Nil) by congruence.
    exists u. cbn [NilZero.string_of_int].
    pose proof (NilZero.usu u Hu) as Hus.
    split; [|split; [exact Hof|]].
    + destruct (NilZero.string_of_uint u) eqn:Es; [discriminate Hus | exact Hus].
    + destruct u; try congruence; cbn; eexists; eexists;
        (split; [reflexivity | discriminate]).
  - exfalso. destruct k as [|p|p]; cbn in E; try discriminate. lia.
Qed.

Lemma int_zeros_prefix (m : nat) (s : string) (u : Decimal.uint) (c : ascii)
    (s' : string) :
  NilEmpty.uint_of_string s = Some u -> s = String c s' -> c <> "-"%char ->
  PyIO.int (Py.zeros m ++ s) = Some (Z.of_int (Decimal.Pos u)).
Proof.
  intros Hu Hs Hc. unfold PyIO.int.
  assert (G : forall m, exists u',
             NilEmpty.uint_of_string (Py.zeros m ++ s) = Some u' /\
             Z.of_int (Decimal.Pos u') = Z.of_int (Decimal.Pos u)).
  { induction m0 as [|m0 [u' [IH1 IH2]]]; cbn [Py.zeros String.append].
    - exists u; auto.
    - exists (Decimal.D0 u'). cbn [NilEmpty.uint_of_string].
      rewrite IH1. split; [reflexivity | exact IH2]. }
  destruct (G m) as (u' & G1 & G2).
  destruct m as [|m]; cbn [Py.zeros String.append] in *.
  - subst s. unfold NilZero.int_of_string.
    destruct (Ascii.eqb_spec c "-"); [contradiction|].
    unfold NilZero.uint_of_string. rewrite G1. cbn [option_map]. now rewrite G2.
  - unfold NilZero.int_of_string.
    change (Ascii.eqb "0" "-") with false. cbv iota.
    unfold NilZero.uint_of_string. rewrite G1. cbn [option_map]. now rewrite G2.
Qed.

Lemma int_format_0d (width : nat) (k : Z) :
  0 <= k -> PyIO.int (Py.format_0d width k) = Some k.
Proof.
  intros Hk. unfold Py.format_0d.
  destruct (Z.ltb_spec k 0); [lia|].
  destruct (str_nonneg_digits k Hk) as (u & Hu & Hof & c & s & Hs & Hc).
  unfold Py.pad0. rewrite (int_zeros_prefix _ _ u c s Hu Hs Hc). now rewrite Hof.
Qed.

Lemma student_id_of_inj (i j : Z) :
  0 <= i -> 0 <= j -> student_id_of i = student_id_of j -> i = j.
Proof.
  intros Hi Hj E. unfold student_id_of in E.
  cbn [String.append] in E. inversion E as [E'].
  apply (f_equal PyIO.int) in E'.
  rewrite !int_format_0d in E' by lia. inversion E'. lia.
Qed.

Lemma grade_of_tag_grade (g : Z) :
  4 <= g <= 12 -> grade_of_tag ("Grade-" ++ Py.str g) = Some g.
Proof.
  intros H.
  assert (E : In g [4; 5; 6; 7; 8; 9; 10; 11; 12]) by (cbn [In]; lia).
  cbn [In] in E.
  repeat (destruct E as [<-|E]; [reflexivity|]). contradiction.
Qed.

Lemma percent_table_holds :
  forallb (fun k => forallb (fun c => percent_ok (Z.of_nat c) (6 * Z.of_nat k))
                            (seq 0 (6 * k + 1)))
          (seq 1 35) = true.
Proof. vm_compute. reflexivity. Qed.

Lemma percent_ok_spec (correct total : Z) :
  percent_ok correct total = true ->
  exists q,
    PyIO.truediv (100 * correct) total = Some q /\
    PyIO.format_f0 q = Py.str (nearest_percent correct total) /\
    Z.abs (200 * correct - 2 * nearest_percent correct total * total) <= total.
Proof.
  unfold percent_ok.
  destruct (PyIO.truediv (100 * correct) total) as [q|]; [|discriminate].
  intros T. apply andb_prop in T as [T1 T2].
  exists q. split; [reflexivity|]. split.
  - now apply String.eqb_eq.
  - now apply Z.leb_le.
Qed.

Lemma percent_table_entry (c k : nat) :
  In k (seq 1 35) -> In c (seq 0 (6 * k + 1)) ->
  percent_ok (Z.of_nat c) (6 * Z.of_nat k) = true.
Proof.
  intros Hk Hc. pose proof percent_table_holds as T.
  rewrite forallb_forall in T. specialize (T k Hk).
  rewrite forallb_forall in T. exact (T c Hc).
Qed.

Lemma percent_nearest (correct k : Z) :
  1 <= k <= 35 -> 0 <= correct <= 6 * k ->
  exists q,
    PyIO.truediv (100 * correct) (6 * k) = Some q /\
    PyIO.format_f0 q = Py.str (nearest_percent correct (6 * k)) /\
    Z.abs (200 * correct - 2 * nearest_percent correct (6 * k) * (6 * k))
      <= 6 * k.
Proof.
  intros Hk Hc. apply percent_ok_spec.
  replace correct with (Z.of_nat (Z.to_nat correct)) by lia.
  replace k with (Z.of_nat (Z.to_nat k)) by lia.
  apply percent_table_entry; apply in_seq; lia.
Qed.

(* ================================================================= *)
(** ** The rows of the data set *)

Lemma answers_from_records grade comp t keys evs t' :
  answers_from grade comp t keys evs t' -> 4 <= grade <= 12 ->
  Forall well_formed_record (records evs).
Proof.
  intros H Hg. induction H as [t | t q_type seq keys d r evs t' Hd He Hrec IH].
  - constructor.
  - cbn [records]. constructor; [|exact IH]. split.
    + apply (em_flag _ _ _ _ _ _ He).
    + exists grade. split; [exact Hg | apply (em_grade _ _ _ _ _ _ He)].
Qed.

Lemma comps_trace_records grade t comps evs t' :
  comps_trace grade t comps evs t' -> 4 <= grade <= 12 ->
  Forall well_formed_record (records evs).
Proof.
  intros H Hg.
  induction H as [t | t comp comps Hlim
                 | t comp comps evs t1 evs' t2 Hlim Ha Hc IH].
  - constructor.
  - constructor.
  - cbn [records]. rewrite records_app. apply Forall_app. split; [|exact IH].
    eapply answers_from_records; eassumption.
Qed.

Lemma grades_trace_records t grades evs t' :
  grades_trace t grades evs t' -> Forall well_formed_record (records evs).
Proof.
  induction 1 as [t | t g grades comps evs t1 evs' t2 Hd Hc Hr IH].
  - constructor.
  - destruct (competencies_of_grade _ _ Hd) as [Hg _].
    rewrite records_app. apply Forall_app. split; [|exact IH].
    eapply comps_trace_records; eassumption.
Qed.

Lemma simulate_run_records (student_grade : Z) (base_skill : float) (g : Py.rng) :
  Forall well_formed_record (responses (simulate_run student_grade base_skill g)) /\
  (6 <= List.length (responses (simulate_run student_grade base_skill g)) <= 210)%nat /\
  exists k, (List.length (responses (simulate_run student_grade base_skill g))
             = 6 * k)%nat.
Proof.
  destruct (simulate_run_trace student_grade base_skill g) as [T R].
  cbv zeta in T, R. rewrite R.
  split; [eapply grades_trace_records; exact T|]. split.
  - split; [|eapply trace_at_most_210; exact T].
    change (Py.range 4 13) with (4 :: [5; 6; 7; 8; 9; 10; 11; 12]) in T.
    eapply trace_starts_with_grade_4; exact T.
  - destruct (grades_trace_between _ _ _ _ T 0%nat) as (_ & k & Hk);
      [exists 0%nat; reflexivity|].
    exists k. rewrite Nat.add_0_l in Hk. exact Hk.
Qed.

Lemma randint_range (a b : Z) (g : Py.rng) :
  a <= b -> a <= fst (Py.randint a b g) <= b.
Proof.
  intros H. cbv [Py.randint Py.next_raw fst].
  pose proof (Z.mod_pos_bound (Py.tape g (Py.pos g)) (b - a + 1) ltac:(lia)).
  lia.
Qed.

Lemma generate_student_block (i : Z) (rows : list row) (g : Py.rng) :
  exists block,
    fst (generate_student i (rows, g)) = rows ++ block /\
    student_block i block.
Proof.
  unfold generate_student.
  destruct (Py.choice FIRST_NAMES g) as [first_name g1].
  destruct (Py.choice LAST_NAMES g1) as [last_name g2].
  pose proof (randint_range 4 12 g2 ltac:(lia)) as Hr.
  destruct (Py.randint 4 12 g2) as [student_grade g3]. cbn [fst] in Hr.
  destruct (Py.uniform 0.5 0.9 g3) as [base_skill g4].
  unfold simulate_student_performance. cbn [fst].
  eexists. split; [reflexivity|].
  exists (first_name ++ " " ++ last_name)%string, student_grade, base_skill, g4.
  split; [exact Hr | reflexivity].
Qed.

Section StudentLoop.

Variable step : Z -> list row * Py.rng -> list row * Py.rng.
Variable appended : Z -> list row -> Prop.
Hypothesis step_appends : forall i rows g,
  exists block, fst (step i (rows, g)) = rows ++ block /\ appended i block.

Lemma loop_blocks (indices : list Z) : forall acc,
  exists blocks,
    fst (fold_left (fun a i => step i a) indices acc)
      = fst acc ++ List.concat blocks /\
    Forall2 appended indices blocks.
Proof.
  induction indices as [|i indices IH]; intros acc.
  - exists []. split; [|constructor].
    change (fst acc = fst acc ++ []). now rewrite app_nil_r.
  - destruct acc as [rows g].
    destruct (step_appends i rows g) as (block & Hb & Hs).
    destruct (IH (step i (rows, g))) as (blocks & Hbs & Hf).
    exists (block :: blocks). split; [|constructor; assumption].
    change (fst (fold_left (fun a i => step i a) indices (step i (rows, g)))
            = rows ++ block ++ List.concat blocks).
    rewrite Hbs, Hb. now rewrite app_assoc.
Qed.

End StudentLoop.

Lemma generate_rows_blocks (num_students : Z) (g : Py.rng) :
  exists blocks,
    fst (generate_rows num_students g) = List.concat blocks /\
    Forall2 student_block (Py.range 0 num_students) blocks.
Proof.
  exact (loop_blocks generate_student student_block generate_student_block
           (Py.range 0 num_students) ([], g)).
Qed.

Lemma range_facts (n : Z) :
  NoDup (Py.range 0 n) /\ Forall (fun i => 0 <= i) (Py.range 0 n) /\
  (0 < n -> exists rest, Py.range 0 n = 0 :: rest).
Proof.
  unfold Py.range. repeat split.
  - apply Finite.Injective_map_NoDup; [|apply seq_NoDup].
    intros x y. lia.
  - apply Forall_map. apply Forall_forall. intros; lia.
  - intros H. destruct (Z.to_nat (n - 0)) eqn:E; [lia|].
    cbn [seq map]. eexists. reflexivity.
Qed.

Lemma student_block_facts (i : Z) (block : list row) :
  student_block i block ->
  Forall (fun r => student_id r = student_id_of i /\
                   well_formed_record (resp r)) block /\
  exists k, 1 <= k <= 35 /\ Z.of_nat (List.length block) = 6 * k.
Proof.
  intros (name & sg & bs & g & Hsg & ->).
  destruct (simulate_run_records sg bs g) as (Hw & Hlen & k & Hk).
  split.
  - apply Forall_map. eapply Forall_impl; [|exact Hw].
    intros r Hr. cbn [student_id resp]. split; [reflexivity | exact Hr].
  - rewrite length_map. exists (Z.of_nat k). lia.
Qed.

Lemma student_rows_other (i j : Z) (block : list row) :
  student_block i block -> 0 <= i -> 0 <= j -> i <> j ->
  student_rows block (student_id_of j) = [].
Proof.
  intros Hb Hi Hj Hne.
  destruct (student_block_facts _ _ Hb) as [Hf _]. clear Hb.
  unfold student_rows. induction Hf as [|r rows [Hr _] _ IH]; [reflexivity|].
  cbn [filter]. rewrite Hr.
  destruct (String.eqb_spec (student_id_of i) (student_id_of j)) as [E|_];
    [|exact IH].
  exfalso. apply Hne. now apply student_id_of_inj.
Qed.

Lemma student_rows_same (i : Z) (block : list row) :
  student_block i block -> student_rows block (student_id_of i) = block.
Proof.
  intros Hb. destruct (student_block_facts _ _ Hb) as [Hf _]. clear Hb.
  unfold student_rows. induction Hf as [|r rows [Hr _] _ IH]; [reflexivity|].
  cbn [filter]. rewrite Hr, String.eqb_refl. now rewrite IH.
Qed.

Lemma student_rows_app (l1 l2 : list row) (sid : string) :
  student_rows (l1 ++ l2) sid = student_rows l1 sid ++ student_rows l2 sid.
Proof. apply filter_app. Qed.

Lemma student_rows_of_blocks (indices : list Z) (blocks : list (list row)) :
  Forall2 student_block indices blocks ->
  NoDup indices -> Forall (fun i => 0 <= i) indices ->
  forall sid, In sid (map student_id (List.concat blocks)) ->
  exists j block,
    In j indices /\ sid = student_id_of j /\ student_block j block /\
    student_rows (List.concat blocks) sid = block.
Proof.
  induction 1 as [|i block indices blocks Hb Hbs IH]; intros Hnd Hpos sid Hin.
  - destruct Hin.
  - inversion Hnd as [|? ? Hni Hnd']; subst.
    inversion Hpos as [|? ? Hi Hpos']; subst.
    cbn [List.concat] in *. rewrite map_app in Hin.
    assert (Hothers : forall j, In j indices -> 
              student_rows block (student_id_of j) = []).
    { intros j Hj. apply (student_rows_other i); auto.
      - rewrite Forall_forall in Hpos'. auto.
      - intros ->. contradiction. }
    assert (Hrest : student_rows (List.concat blocks) (student_id_of i) = []).
    { clear - Hbs Hni Hi Hpos'. induction Hbs as [|j b js bs Hj _ IHb];
        [reflexivity|].
      inversion Hpos'; subst. cbn [List.concat]. rewrite student_rows_app.
      rewrite (student_rows_other j i b); auto.
      - apply IHb; auto. intros H; apply Hni; now right.
      - intros ->. apply Hni. now left. }
    apply in_app_or in Hin as [Hin|Hin].
    + destruct (student_block_facts _ _ Hb) as [Hf _].
      apply in_map_iff in Hin as (r & <- & Hr).
      rewrite Forall_forall in Hf. destruct (Hf r Hr) as [E _].
      exists i, block. split; [now left|]. split; [exact E|]. split; [exact Hb|].
      rewrite E, student_rows_app, Hrest, app_nil_r.
      now apply student_rows_same.
    + destruct (IH Hnd' Hpos' sid Hin) as (j & b & Hj & -> & Hbj & Hrows).
      exists j, b. split; [now right|]. split; [reflexivity|].
      split; [exact Hbj|].
      rewrite student_rows_app, (Hothers j Hj). exact Hrows.
Qed.

(* ================================================================= *)
(** ** The summary lines *)

Lemma sum_of_flags (rows : list row) : forall acc,
  Forall (fun r => well_formed_record (resp r)) rows ->
  fold_left Z.add (map (fun r => is_correct (resp r)) rows) acc
    = acc + Z.of_nat (List.length
                        (filter (fun r => is_correct (resp r) =? 1) rows)).
Proof.
  induction rows as [|r rows IH]; intros acc Hf; cbn [map fold_left filter].
  - cbn. lia.
  - inversion Hf as [|? ? [Hflag _] Hf']; subst.
    rewrite (IH _ Hf').
    destruct Hflag as [E|E]; rewrite E.
    + change (0 =? 1) with false. cbv iota. lia.
    + change (1 =? 1) with true. cbv iota. cbn [List.length].
      rewrite Nat2Z.inj_succ. lia.
Qed.

Lemma correct_count_flags (rows : list row) :
  Forall (fun r => well_formed_record (resp r)) rows ->
  correct_count rows
    = Z.of_nat (List.length (filter (fun r => is_correct (resp r) =? 1) rows)) /\
  0 <= correct_count rows <= Z.of_nat (List.length rows).
Proof.
  intros Hf. unfold correct_count, PyIO.sum.
  rewrite (sum_of_flags rows 0 Hf). split; [lia|].
  pose proof (filter_length_le (fun r => is_correct (resp r) =? 1) rows). lia.
Qed.

Lemma fold_max_spec (gs : list Z) : forall x,
  (fold_left Z.max gs x = x \/ In (fold_left Z.max gs x) gs) /\
  x <= fold_left Z.max gs x /\
  Forall (fun g => g <= fold_left Z.max gs x) gs.
Proof.
  induction gs as [|g gs IH]; intros x; cbn [fold_left].
  - split; [now left|]. split; [lia | constructor].
  - destruct (IH (Z.max x g)) as (I1 & I2 & I3). split; [|split].
    + destruct I1 as [E|Hin]; [|right; now right].
      rewrite E. destruct (Z.max_spec x g) as [[_ ->]|[_ ->]];
        [right; now left | now left].
    + lia.
    + constructor; [lia | exact I3].
Qed.

Lemma grades_of_rows (rows : list row) :
  Forall (fun r => well_formed_record (resp r)) rows ->
  exists gs,
    all_some (map (fun r => grade_of_tag (grade_tag (resp r))) rows) = Some gs /\
    Forall2 (fun r g => grade_tag (resp r) = ("Grade-" ++ Py.str g)%string)
            rows gs.
Proof.
  induction 1 as [|r rows [_ (g & Hg & Ht)] _ (gs & IH1 & IH2)].
  - exists []. split; [reflexivity | constructor].
  - exists (g :: gs). cbn [map all_some].
    rewrite Ht, (grade_of_tag_grade g Hg), IH1. split; [reflexivity|].
    constructor; assumption.
Qed.

Lemma Forall2_In_right {A B} (P : A -> B -> Prop) (l : list A) (l' : list B) :
  Forall2 P l l' -> forall y, In y l' -> exists x, In x l /\ P x y.
Proof.
  induction 1 as [|x y l l' Hxy _ IH]; intros y0 Hin; [destruct Hin|].
  destruct Hin as [<-|Hin].
  - exists x. split; [now left | exact Hxy].
  - destruct (IH _ Hin) as (x0 & Hx0 & Hp). exists x0. split; [now right | exact Hp].
Qed.

Lemma Forall2_In_left {A B} (P : A -> B -> Prop) (l : list A) (l' : list B) :
  Forall2 P l l' -> forall x, In x l -> exists y, In y l' /\ P x y.
Proof.
  induction 1 as [|x y l l' Hxy _ IH]; intros x0 Hin; [destruct Hin|].
  destruct Hin as [<-|Hin].
  - exists y. split; [now left | exact Hxy].
  - destruct (IH _ Hin) as (y0 & Hy0 & Hp). exists y0. split; [now right | exact Hp].
Qed.

Lemma max_grade_spec (rows : list row) :
  rows <> [] ->
  Forall (fun r => well_formed_record (resp r)) rows ->
  exists reached,
    max_grade rows = Some reached /\
    (exists r, In r rows /\
               grade_tag (resp r) = ("Grade-" ++ Py.str reached)%string) /\
    (forall r, In r rows ->
       exists g, grade_tag (resp r) = ("Grade-" ++ Py.str g)%string /\
                 g <= reached).
Proof.
  intros Hne Hf. destruct (grades_of_rows rows Hf) as (gs & Hgs & H2).
  unfold max_grade. rewrite Hgs.
  destruct gs as [|g gs]; [inversion H2; subst; contradiction|].
  cbn [PyIO.max_of]. exists (fold_left Z.max gs g). split; [reflexivity|].
  destruct (fold_max_spec gs g) as (M1 & M2 & M3).
  assert (Hin : In (fold_left Z.max gs g) (g :: gs)).
  { destruct M1 as [E|Hin]; [left; now rewrite E | now right]. }
  assert (Hall : Forall (fun x => x <= fold_left Z.max gs g) (g :: gs))
    by (constructor; assumption).
  split.
  - exact (Forall2_In_right _ _ _ H2 _ Hin).
  - intros r Hr. destruct (Forall2_In_left _ _ _ H2 _ Hr) as (x & Hx & Hp).
    exists x. split; [exact Hp|]. rewrite Forall_forall in Hall. auto.
Qed.

Lemma summary_line_of_block (all_rows : list row) (sid : string) (j : Z)
    (block : list row) :
  student_block j block ->
  student_rows all_rows sid = block ->
  In sid (map student_id all_rows) ->
  exists line,
    summary_line all_rows sid = inr line /\ summary_of all_rows sid line.
Proof.
  intros Hb Hrows Hin.
  destruct (student_block_facts _ _ Hb) as (Hf & k & Hk & Hlen).
  assert (Hw : Forall (fun r => well_formed_record (resp r)) block).
  { eapply Forall_impl; [|exact Hf]. cbn beta. tauto. }
  assert (Hne : block <> []).
  { intros ->. cbn [List.length Z.of_nat] in Hlen. lia. }
  destruct (max_grade_spec block Hne Hw) as (reached & Hmax & Hr1 & Hr2).
  destruct (correct_count_flags block Hw) as (Hc & Hcb).
  rewrite Hlen in Hcb.
  destruct (percent_nearest (correct_count block) k Hk Hcb) as (q & Hq & Hfmt & Hn).
  unfold summary_line. rewrite Hrows, Hmax, Hlen, Hq, Hfmt.
  eexists. split; [reflexivity|].
  split; [exact Hin|].
  exists (correct_count block), (6 * k),
         (nearest_percent (correct_count block) (6 * k)), reached.
  rewrite Hrows.
  split; [now rewrite Hlen|]. split; [lia|]. split; [exact Hc|].
  split; [exact Hn|]. split; [exact Hr1|]. split; [exact Hr2 | reflexivity].
Qed.

Lemma insertion_order_In (l : list string) (x : string) :
  In x (insertion_order l) <-> In x l.
Proof.
  induction l as [|y l IH]; cbn [insertion_order In]; [tauto|].
  rewrite filter_In, IH.
  destruct (String.eqb_spec x y) as [->|Hne]; cbn [negb]; [tauto|].
  split; [tauto|]. intros [E|H]; [now left | right; split; [exact H | reflexivity]].
Qed.

Lemma insertion_order_NoDup (l : list string) : NoDup (insertion_order l).
Proof.
  induction l as [|y l IH]; cbn [insertion_order]; constructor.
  - rewrite filter_In, String.eqb_refl. cbn [negb]. intros [_ H]; discriminate.
  - now apply NoDup_filter.
Qed.

Lemma firstn_NoDup {A} (n : nat) (l : list A) : NoDup l -> NoDup (firstn n l).
Proof.
  revert n. induction l as [|x l IH]; intros [|n] H; cbn [firstn];
    try constructor.
  - inversion H as [|? ? Hx _]; subst. intros Hin. apply Hx.
    rewrite <- (firstn_skipn n l). apply in_or_app. now left.
  - apply IH. now inversion H.
Qed.

Lemma firstn_In {A} (n : nat) (l : list A) (x : A) :
  In x (firstn n l) -> In x l.
Proof.
  intros H. rewrite <- (firstn_skipn n l). apply in_or_app. now left.
Qed.

Lemma summary_students_facts (set_order : list string -> list string)
    (all_rows : list row) :
  set_iteration set_order ->
  NoDup (summary_students set_order all_rows) /\
  incl (summary_students set_order all_rows) (map student_id all_rows) /\
  List.length (summary_students set_order all_rows)
    = Nat.min 3 (List.length (insertion_order (map student_id all_rows))).
Proof.
  intros Hs. unfold summary_students.
  pose proof (Hs (map student_id all_rows)) as Hp.
  split; [|split].
  - apply firstn_NoDup. eapply Permutation_NoDup;
      [apply Permutation_sym; exact Hp | apply insertion_order_NoDup].
  - intros x Hx. apply firstn_In in Hx.
    apply insertion_order_In. eapply Permutation_in; eassumption.
  - rewrite length_firstn. now rewrite (Permutation_length Hp).
Qed.

Lemma print_summary_lines (all_rows : list row) (sids lines : list string) :
  Forall2 (fun sid line => summary_line all_rows sid = inr line) sids lines ->
  forall w, exists w',
    print_summary all_rows sids w = PyIO.Returned w' /\
    PyIO.writable w' = PyIO.writable w /\
    PyIO.files w' = PyIO.files w /\
    PyIO.stdout w' = PyIO.stdout w ++ lines.
Proof.
  induction 1 as [|sid line sids lines Hl _ IH]; intros w; cbn [print_summary].
  - exists w. rewrite app_nil_r. auto.
  - rewrite Hl. destruct (IH (PyIO.print line w)) as (w' & H1 & H2 & H3 & H4).
    exists w'. split; [exact H1|]. cbn [PyIO.print PyIO.writable PyIO.files
                                         PyIO.stdout] in H2, H3, H4.
    rewrite H2, H3, H4, <- app_assoc. auto.
Qed.

Lemma rows_nonempty (num_students : Z) (g : Py.rng) :
  0 < num_students -> fst (generate_rows num_students g) <> [].
Proof.
  intros Hn. destruct (generate_rows_blocks num_students g) as (blocks & -> & Hb).
  destruct (range_facts num_students) as (_ & _ & Hr).
  destruct (Hr Hn) as (rest & E). rewrite E in Hb.
  inversion Hb as [|? block ? blocks' Hblock _]; subst.
  destruct (student_block_facts _ _ Hblock) as (_ & k & Hk & Hlen).
  destruct block; [cbn [List.length Z.of_nat] in Hlen; lia | discriminate].
Qed.

Lemma summary_lines_exist (set_order : list string -> list string)
    (num_students : Z) (g : Py.rng) :
  set_iteration set_order ->
  exists lines,
    Forall2 (fun sid line =>
               summary_line (fst (generate_rows num_students g)) sid = inr line /\
               summary_of (fst (generate_rows num_students g)) sid line)
            (summary_students set_order (fst (generate_rows num_students g)))
            lines.
Proof.
  intros Hs.
  destruct (summary_students_facts set_order
              (fst (generate_rows num_students g)) Hs) as (_ & Hincl & _).
  destruct (generate_rows_blocks num_students g) as (blocks & E & Hb).
  destruct (range_facts num_students) as (Hnd & Hpos & _).
  induction (summary_students set_order (fst (generate_rows num_students g)))
    as [|sid sids IH].
  - exists []. constructor.
  - destruct IH as (lines & IH); [intros x Hx; apply Hincl; now right|].
    assert (Hin : In sid (map student_id (fst (generate_rows num_students g))))
      by (apply Hincl; now left).
    pose proof Hin as Hin'. rewrite E in Hin'.
    destruct (student_rows_of_blocks _ _ Hb Hnd Hpos sid Hin')
      as (j & block & _ & _ & Hblock & Hrows).
    rewrite <- E in Hrows.
    destruct (summary_line_of_block _ sid j block Hblock Hrows Hin)
      as (line & L1 & L2).
    exists (line :: lines). constructor; [split; assumption | exact IH].
Qed.

(* ================================================================= *)
(** ** Writing and reporting *)

Lemma generate_sample_data_unfold (set_order : list string -> list string)
    (num_students : Z) (output_file : string) (g : Py.rng) (w : PyIO.world) :
  generate_sample_data set_order num_students output_file g w
    = write_and_report set_order (fst (generate_rows num_students g))
        num_students output_file w.
Proof.
  unfold generate_sample_data.
  destruct (generate_rows num_students g) as [rows g']. reflexivity.
Qed.

Lemma write_and_report_lines (set_order : list string -> list string)
    (all_rows : list row) (num_students : Z) (output_file : string)
    (w : PyIO.world) (lines : list string) :
  all_rows <> [] ->
  PyIO.writable w output_file = true ->
  Forall2 (fun sid line => summary_line all_rows sid = inr line)
          (summary_students set_order all_rows) lines ->
  exists w',
    write_and_report set_order all_rows num_students output_file w
      = PyIO.Returned w' /\
    PyIO.files w' output_file = Some (fieldnames :: map csv_cells all_rows) /\
    PyIO.stdout w'
      = PyIO.stdout w ++
        [("Generated " ++ Py.str (Z.of_nat (List.length all_rows)) ++
          " responses for " ++ Py.str num_students ++ " students")%string;
         ("Saved to: " ++ output_file)%string] ++ lines.
Proof.
  intros Hne Hw Hl. unfold write_and_report.
  destruct all_rows as [|r rows]; [contradiction|]. rewrite Hw.
  match goal with
  | |- context [print_summary _ _ ?w3] =>
      destruct (print_summary_lines _ _ _ Hl w3) as (w' & H1 & _ & H3 & H4)
  end.
  exists w'. split; [exact H1|]. split.
  - rewrite H3. cbn [PyIO.print PyIO.write_csv PyIO.files].
    now rewrite String.eqb_refl.
  - rewrite H4. cbn [PyIO.print PyIO.write_csv PyIO.stdout].
    now rewrite <- !app_assoc.
Qed.

Lemma summary_line_never_divides_by_zero (all_rows : list row) (sid : string) :
  summary_line all_rows sid <> inl PyIO.ZeroDivisionError.
Proof.
  unfold summary_line, PyIO.truediv.
  destruct (student_rows all_rows sid) as [|r rows] eqn:E.
  - cbn. discriminate.
  - destruct (max_grade (r :: rows)); [|discriminate].
    destruct (Z.eqb_spec (Z.of_nat (List.length (r :: rows))) 0) as [H|_];
      [cbn [List.length] in H; lia | discriminate].
Qed.

Lemma print_summary_never_divides_by_zero (all_rows : list row)
    (sids : list string) : forall w w',
  print_summary all_rows sids w <> PyIO.Raised PyIO.ZeroDivisionError w'.
Proof.
  induction sids as [|sid sids IH]; intros w w'; cbn [print_summary].
  - discriminate.
  - pose proof (summary_line_never_divides_by_zero all_rows sid) as H.
    destruct (summary_line all_rows sid) as [e|line]; [|apply IH].
    intros E. inversion E; subst. now apply H.
Qed.

Lemma student_rows_nonempty (all_rows : list row) (sid : string) :
  In sid (map student_id all_rows) ->
  0 < Z.of_nat (List.length (student_rows all_rows sid)).
Proof.
  intros H. apply in_map_iff in H as (r & <- & Hr).
  assert (Hin : In r (student_rows all_rows (student_id r))).
  { apply filter_In. split; [exact Hr | apply String.eqb_refl]. }
  destruct (student_rows all_rows (student_id r)); [destruct Hin|].
  cbn [List.length]. lia.
Qed.

Lemma reverse_order_set_iteration : set_iteration reverse_order.
Proof. intros l. apply Permutation_sym, Permutation_rev. Qed.

Lemma insertion_order_set_iteration : set_iteration insertion_order.
Proof. intros l. apply Permutation_refl. Qed.

(* ================================================================= *)
(** ** The records follow the bank, from its first question on *)

Lemma answers_from_match grade comp t keys evs t' :
  answers_from grade comp t keys evs t' ->
  Forall2 record_matches (answered_keys evs) (records evs).
Proof.
  induction 1 as [t | t q_type seq keys d r evs t' Hd He Hrec IH].
  - constructor.
  - cbn [answered_keys records]. constructor; [|exact IH].
    destruct He. cbn [record_matches]. auto.
Qed.

Lemma comps_trace_match grade t comps evs t' :
  comps_trace grade t comps evs t' ->
  Forall2 record_matches (answered_keys evs) (records evs).
Proof.
  induction 1 as [t | t comp comps Hlim
                 | t comp comps evs t1 evs' t2 Hlim Ha Hc IH].
  - constructor.
  - constructor.
  - cbn [answered_keys records]. rewrite answered_keys_app, records_app.
    apply Forall2_app; [eapply answers_from_match; eassumption | exact IH].
Qed.

Lemma grades_trace_match t grades evs t' :
  grades_trace t grades evs t' ->
  Forall2 record_matches (answered_keys evs) (records evs).
Proof.
  induction 1 as [t | t g grades comps evs t1 evs' t2 Hd Hc Hr IH].
  - constructor.
  - rewrite answered_keys_app, records_app.
    apply Forall2_app; [eapply comps_trace_match; eassumption | exact IH].
Qed.

Lemma answered_keys_idle e grades : answered_keys (idle_grades e grades) = [].
Proof. induction grades; cbn; auto. Qed.

Lemma comps_trace_prefix grade t comps evs t' :
  comps_trace grade t comps evs t' ->
  exists rest,
    flat_map (competency_keys grade) comps = answered_keys evs ++ rest /\
    (rest <> [] -> time_limit_seconds <= t' - start_time).
Proof.
  induction 1 as [t | t comp comps Hlim
                 | t comp comps evs t1 evs' t2 Hlim Ha Hc IH].
  - exists []. split; [reflexivity | congruence].
  - eexists. split; [reflexivity | auto].
  - destruct IH as (rest & E & Hrest).
    destruct (answers_from_keys _ _ _ _ _ _ Ha) as (A1 & _).
    exists rest. split; [|exact Hrest].
    cbn [flat_map answered_keys]. rewrite answered_keys_app, E, A1.
    now rewrite app_assoc.
Qed.

Lemma grades_trace_prefix t grades evs t' :
  grades_trace t grades evs t' ->
  exists rest, flat_map grade_keys grades = answered_keys evs ++ rest.
Proof.
  induction 1 as [t | t g grades comps evs t1 evs' t2 Hd Hc Hr IH].
  - exists []. reflexivity.
  - destruct (comps_trace_prefix _ _ _ _ _ Hc) as (rest & E & Hrest).
    cbn [flat_map]. unfold grade_keys at 1. rewrite Hd, E, answered_keys_app.
    destruct rest as [|k rest].
    + destruct IH as (rest' & ->). exists rest'.
      now rewrite app_nil_r, app_assoc.
    + assert (Hex : time_limit_seconds <= t1 - start_time)
        by (apply Hrest; discriminate).
      destruct (grades_trace_exhausted _ _ _ _ Hr Hex) as [-> _].
      rewrite answered_keys_idle, app_nil_r.
      eexists. rewrite <- app_assoc. reflexivity.
Qed.

Lemma firstn_length_app {A} (l1 l2 : list A) :
  firstn (List.length l1) (l1 ++ l2) = l1.
Proof. induction l1 as [|x l1 IH]; cbn; [reflexivity | now rewrite IH]. Qed.

(* ================================================================= *)
(** ** How far a run always gets *)

Lemma comps_trace_complete grade t comps evs t' :
  comps_trace grade t comps evs t' ->
  30 <= max_duration grade ->
  t + 6 * max_duration grade * Z.of_nat (List.length comps)
    <= start_time + time_limit_seconds ->
  List.length (records evs) = (6 * List.length comps)%nat /\
  t' <= t + 6 * max_duration grade * Z.of_nat (List.length comps) /\
  answered_keys evs = flat_map (competency_keys grade) comps.
Proof.
  intros H Hm.
  induction H as [t | t comp comps Hlim
                 | t comp comps evs t1 evs' t2 Hlim Ha Hc IH]; intros Hb.
  - cbn. repeat split; lia.
  - exfalso. cbn [List.length] in Hb.
    rewrite Nat2Z.inj_succ, Z.mul_succ_r in Hb. lia.
  - destruct (answers_from_count _ _ _ _ _ _ Ha) as (A1 & A2 & A3).
    destruct (answers_from_keys _ _ _ _ _ _ Ha) as (K1 & _).
    cbn [List.length question_keys] in A1, A2, A3.
    cbn [List.length] in Hb. rewrite Nat2Z.inj_succ, Z.mul_succ_r in Hb.
    change (Z.of_nat 6) with 6 in *.
    destruct IH as (I1 & I2 & I3); [lia|].
    cbn [records answered_keys flat_map List.length].
    rewrite records_app, length_app, answered_keys_app, A1, I1, I3, K1.
    rewrite Nat2Z.inj_succ, Z.mul_succ_r.
    split; [lia|]. split; [lia | reflexivity].
Qed.

Lemma grades_trace_complete t grades evs t' :
  grades_trace t grades evs t' ->
  t + most_duration grades <= start_time + time_limit_seconds ->
  List.length (records evs) = (24 * List.length grades)%nat /\
  t' <= t + most_duration grades /\
  answered_keys evs = flat_map grade_keys grades.
Proof.
  induction 1 as [t | t g grades comps evs t1 evs' t2 Hd Hc Hr IH]; intros Hb.
  - cbn. repeat split; lia.
  - destruct (competencies_of_grade _ _ Hd) as [Hg Hlen].
    assert (Hm : 30 <= max_duration g) by (unfold max_duration; lia).
    cbn [most_duration fold_right] in Hb. fold (most_duration grades) in Hb.
    assert (Hrest : 0 <= most_duration grades).
    { clear - Hr. induction Hr as [|? ? ? ? ? ? ? ? Hd' _ _ IH'];
        cbn [most_duration fold_right]; [lia|].
      fold (most_duration grades).
      destruct (competencies_of_grade _ _ Hd') as [Hg' _].
      unfold max_duration. lia. }
    destruct (comps_trace_complete _ _ _ _ _ Hc Hm) as (C1 & C2 & C3).
    { rewrite Hlen. change (Z.of_nat 4) with 4. lia. }
    rewrite Hlen in C1, C2. change (Z.of_nat 4) with 4 in C2.
    destruct IH as (I1 & I2 & I3); [lia|].
    rewrite records_app, length_app, answered_keys_app, C1, I1, C3, I3.
    cbn [most_duration fold_right List.length flat_map].
    fold (most_duration grades). unfold grade_keys at 2. rewrite Hd.
    split; [lia|]. split; [lia | reflexivity].
Qed.

Lemma trace_at_least_144 evs t' :
  grades_trace start_time (Py.range 4 13) evs t' ->
  (144 <= List.length (records evs))%nat.
Proof.
  change (Py.range 4 13) with ([4; 5; 6; 7; 8; 9] ++ [10; 11; 12]).
  intros H. destruct (grades_trace_app _ _ _ _ _ H) as (a & tm & b & -> & G1 & _).
  destruct (grades_trace_complete _ _ _ _ G1) as (C1 & _).
  - change (most_duration [4; 5; 6; 7; 8; 9]) with 5400.
    unfold time_limit_seconds. lia.
  - rewrite records_app, length_app, C1. cbn [List.length]. lia.
Qed.

Lemma last_default {A} (l : list A) (x d d' : A) :
  last (x :: l) d = last (x :: l) d'.
Proof.
  revert x. induction l as [|y l IH]; intros x; [reflexivity|].
  change (last (y :: l) d = last (y :: l) d'). apply IH.
Qed.

Lemma clock_after_last (evs : list event) : forall t,
  clock_after t evs = last (answer_clocks evs) t.
Proof.
  induction evs as [|e evs IH]; intros t; [reflexivity|].
  destruct e as [g c el | g c q s d now r]; cbn [clock_after answer_clocks].
  - apply IH.
  - rewrite IH. generalize (answer_clocks evs). intros [|x l]; [reflexivity|].
    change (last (x :: l) now = last (x :: l) t). apply last_default.
Qed.

Lemma last_bounded (l : list Py.datetime) (d bound : Py.datetime) :
  Forall (fun c => c <= bound) l -> d <= bound -> last l d <= bound.
Proof.
  induction 1 as [|x l Hx _ IH]; intros Hd; [exact Hd|].
  destruct l as [|y l]; [exact Hx|]. cbn [last] in *. exact (IH Hd).
Qed.

(* ================================================================= *)
(** ** Comparing a float with the two bounds of the clamp *)

Ltac float_constants :=
  repeat match goal with
  | |- context [Prim2SF ?c] =>
      lazymatch c with
      | 0.15%float => idtac
      | 0.98%float => idtac
      end;
      let v := eval vm_compute in (Prim2SF c) in change (Prim2SF c) with v
  end.

Ltac finite_cases m :=
  rewrite ?Pos.compare_cont_spec;
  repeat match goal with
  | |- context [Z.compare ?a ?b] =>
      let E := fresh "E" in destruct (Z.compare_spec a b) as [E|E|E]
  end;
  try lia;
  repeat match goal with
  | |- context [Pos.compare ?a m] => rewrite (Pos.compare_antisym m a)
  end;
  repeat match goal with
  | |- context [Pos.compare m ?a] => destruct (Pos.compare m a)
  end;
  cbn [CompOpp Pos.switch_Eq];
  try (intros; split; congruence); try congruence.

Lemma float_below_low (x : float) :
  PrimFloat.ltb x 0.15 = true ->
  PrimFloat.ltb x 0.98 = true /\ PrimFloat.ltb 0.15 x = false.
Proof.
  rewrite !ltb_spec. float_constants. unfold SFltb, SFcompare.
  destruct (Prim2SF x) as [s|s| |s m e]; try destruct s;
    try (intros; split; congruence); try discriminate.
  finite_cases m.
Qed.

Lemma float_above_high (x : float) :
  PrimFloat.ltb 0.98 x = true -> PrimFloat.ltb x 0.98 = false.
Proof.
  rewrite !ltb_spec. float_constants. unfold SFltb, SFcompare.
  destruct (Prim2SF x) as [s|s| |s m e]; try destruct s;
    try (intros; congruence); try discriminate.
  finite_cases m.
Qed.

Lemma float_nan_unordered (x y : float) :
  Prim2SF x = S754_nan -> PrimFloat.ltb x y = false.
Proof.
  intros H. rewrite ltb_spec, H. reflexivity.
Qed.

Lemma last_map_cons {A B} (f : A -> B) (l : list A) : forall x d d',
  last (map f (x :: l)) d' = f (last (x :: l) d).
Proof.
  induction l as [|y l IH]; intros x d d'; [reflexivity|].
  change (last (map f (y :: l)) d' = f (last (y :: l) d)). apply IH.
Qed.

(* ================================================================= *)
(** ** The cohort *)

Lemma choice_In (xs : list string) (g : Py.rng) :
  xs <> [] -> In (fst (Py.choice xs g)) xs.
Proof.
  intros Hne. cbv [Py.choice Py.next_raw fst].
  apply nth_In.
  assert (0 < Z.of_nat (List.length xs)) by (destruct xs; [contradiction | cbn [List.length]; lia]).
  pose proof (Z.mod_pos_bound (Py.tape g (Py.pos g)) (Z.of_nat (List.length xs))
                ltac:(assumption)).
  lia.
Qed.

Lemma cohort_block_student_block (i : Z) (block : list row) :
  cohort_block i block -> student_block i block.
Proof.
  intros (f & l & sg & bs & g & _ & _ & Hsg & ->).
  exists (f ++ " " ++ l)%string, sg, bs, g. split; [exact Hsg | reflexivity].
Qed.

Lemma generate_student_cohort (i : Z) (rows : list row) (g : Py.rng) :
  exists block,
    fst (generate_student i (rows, g)) = rows ++ block /\
    cohort_block i block.
Proof.
  unfold generate_student.
  pose proof (choice_In FIRST_NAMES g ltac:(discriminate)) as Hf.
  destruct (Py.choice FIRST_NAMES g) as [first_name g1]. cbn [fst] in Hf.
  pose proof (choice_In LAST_NAMES g1 ltac:(discriminate)) as Hl.
  destruct (Py.choice LAST_NAMES g1) as [last_name g2]. cbn [fst] in Hl.
  pose proof (randint_range 4 12 g2 ltac:(lia)) as Hr.
  destruct (Py.randint 4 12 g2) as [student_grade g3]. cbn [fst] in Hr.
  destruct (Py.uniform 0.5 0.9 g3) as [base_skill g4].
  unfold simulate_student_performance. cbn [fst].
  eexists. split; [reflexivity|].
  exists first_name, last_name, student_grade, base_skill, g4.
  repeat split; assumption || lia.
Qed.

Lemma generate_rows_cohort (num_students : Z) (g : Py.rng) :
  exists blocks,
    fst (generate_rows num_students g) = List.concat blocks /\
    Forall2 cohort_block (Py.range 0 num_students) blocks.
Proof.
  exact (loop_blocks generate_student cohort_block generate_student_cohort
           (Py.range 0 num_students) ([], g)).
Qed.

Lemma student_block_length (i : Z) (block : list row) :
  student_block i block ->
  (144 <= List.length block <= 210)%nat /\
  exists k, List.length block = (6 * k)%nat.
Proof.
  intros (name & sg & bs & g & _ & ->). rewrite length_map.
  destruct (simulate_run_trace sg bs g) as [T R]. cbv zeta in T, R.
  destruct (simulate_run_records sg bs g) as (_ & [_ H] & K).
  split; [|exact K]. split; [|exact H].
  rewrite R. eapply trace_at_least_144; exact T.
Qed.

Lemma blocks_length (indices : list Z) (blocks : list (list row)) :
  Forall2 student_block indices blocks ->
  (144 * List.length indices <= List.length (List.concat blocks)
     <= 210 * List.length indices)%nat /\
  exists k, List.length (List.concat blocks) = (6 * k)%nat.
Proof.
  induction 1 as [|i block indices blocks Hb _ IH].
  - cbn. split; [lia | exists 0%nat; reflexivity].
  - destruct (student_block_length _ _ Hb) as (B1 & k1 & B2).
    destruct IH as (I1 & k2 & I2).
    cbn [List.concat List.length]. rewrite length_app.
    split; [lia | exists (k1 + k2)%nat; lia].
Qed.

Lemma range_length (lo hi : Z) :
  List.length (Py.range lo hi) = Z.to_nat (hi - lo).
Proof. unfold Py.range. now rewrite length_map, length_seq. Qed.

Lemma filter_filter_same {A} (f : A -> bool) (l : list A) :
  filter f (filter f l) = filter f l.
Proof.
  induction l as [|x l IH]; [reflexivity|]. cbn [filter].
  destruct (f x) eqn:E; [cbn [filter]; now rewrite E, IH | exact IH].
Qed.

Lemma filter_all {A} (f : A -> bool) (l : list A) :
  (forall x, In x l -> f x = true) -> filter f l = l.
Proof.
  induction l as [|x l IH]; intros H; [reflexivity|]. cbn [filter].
  rewrite (H x (or_introl eq_refl)), IH; [reflexivity|].
  intros y Hy. apply H. now right.
Qed.

Lemma insertion_order_run (x : string) (run rest : list string) :
  Forall (eq x) run ->
  insertion_order (x :: run ++ rest)
    = x :: filter (fun y => negb (String.eqb y x)) (insertion_order rest).
Proof.
  induction 1 as [|y run <- _ IH]; [reflexivity|].
  change (insertion_order (x :: (x :: run) ++ rest))
    with (x :: filter (fun y => negb (String.eqb y x))
                 (insertion_order (x :: run ++ rest))).
  rewrite IH. cbn [filter]. rewrite String.eqb_refl. cbn [negb].
  now rewrite filter_filter_same.
Qed.

Lemma insertion_order_blocks (indices : list Z) (blocks : list (list row)) :
  Forall2 student_block indices blocks ->
  NoDup indices -> Forall (fun i => 0 <= i) indices ->
  insertion_order (map student_id (List.concat blocks))
    = map student_id_of indices.
Proof.
  induction 1 as [|i block indices blocks Hb Hbs IH]; intros Hnd Hpos;
    [reflexivity|].
  inversion Hnd as [|? ? Hni Hnd']; subst.
  inversion Hpos as [|? ? Hi Hpos']; subst.
  destruct (student_block_facts _ _ Hb) as (Hf & _).
  destruct (student_block_length _ _ Hb) as ([Hlen _] & _).
  cbn [List.concat map]. rewrite map_app.
  destruct block as [|r block]; [cbn [List.length] in Hlen; lia|].
  inversion Hf as [|? ? [Hr _] Hf']; subst.
  cbn [map app]. rewrite Hr.
  rewrite insertion_order_run.
  - rewrite (IH Hnd' Hpos'). f_equal. apply filter_all.
    intros y Hy. apply in_map_iff in Hy as (j & <- & Hj).
    destruct (String.eqb_spec (student_id_of j) (student_id_of i)) as [E|_];
      [|reflexivity].
    exfalso. apply Hni. rewrite Forall_forall in Hpos'.
    rewrite <- (student_id_of_inj j i (Hpos' j Hj) Hi E). exact Hj.
  - apply Forall_map. eapply Forall_impl; [|exact Hf'].
    cbn beta. intros a [Ha _]. now rewrite Ha.
Qed.

Lemma student_ids_distinct (indices : list Z) :
  NoDup indices -> Forall (fun i => 0 <= i) indices ->
  NoDup (map student_id_of indices).
Proof.
  induction 1 as [|i indices Hni Hnd IH]; intros Hpos; cbn [map]; constructor.
  - inversion Hpos as [|? ? Hi Hpos']; subst.
    intros Hin. apply in_map_iff in Hin as (j & E & Hj). apply Hni.
    rewrite Forall_forall in Hpos'.
    rewrite <- (student_id_of_inj j i (Hpos' j Hj) Hi E). exact Hj.
  - apply IH. now inversion Hpos.
Qed.

(* ================================================================= *)
(** ** More on the report *)

Lemma simulate_run_follows_bank (student_grade : Z) (base_skill : float)
    (g : Py.rng) :
  Forall2 record_matches
    (firstn (List.length (responses (simulate_run student_grade base_skill g)))
            all_keys)
    (responses (simulate_run student_grade base_skill g)).
Proof.
  destruct (simulate_run_trace student_grade base_skill g) as [T R].
  cbv zeta in T, R. rewrite R.
  pose proof (grades_trace_match _ _ _ _ T) as M.
  destruct (grades_trace_prefix _ _ _ _ T) as (rest & E).
  fold all_keys in E.
  rewrite <- (Forall2_length M), E, firstn_length_app. exact M.
Qed.

Lemma firstn_In_more {A} (l : list A) (x : A) : forall a b : nat,
  (a <= b)%nat -> In x (firstn a l) -> In x (firstn b l).
Proof.
  induction l as [|y l IH]; intros a b Hab Hin.
  - now rewrite firstn_nil in *.
  - destruct a as [|a]; [destruct Hin|]. destruct b as [|b]; [lia|].
    cbn [firstn In] in *. destruct Hin as [E|Hin]; [now left|].
    right. apply (IH a b); [lia | exact Hin].
Qed.

Lemma run_reaches_grade_9 (student_grade : Z) (base_skill : float)
    (g : Py.rng) :
  exists r, In r (responses (simulate_run student_grade base_skill g)) /\
            grade_tag r = ("Grade-" ++ Py.str 9)%string.
Proof.
  pose proof (simulate_run_follows_bank student_grade base_skill g) as M.
  destruct (simulate_run_trace student_grade base_skill g) as [T R].
  cbv zeta in T, R.
  pose proof (trace_at_least_144 _ _ T) as Hlen. rewrite <- R in Hlen.
  assert (Hk : In (9, "ALG-Manipulation", 1, 1)
                  (firstn (List.length
                     (responses (simulate_run student_grade base_skill g)))
                     all_keys)).
  { apply (firstn_In_more _ _ 144%nat); [exact Hlen|].
    apply (nth_In (firstn 144 all_keys) (0, EmptyString, 0, 0) (n := 120%nat)).
    vm_compute. lia. }
  destruct (Forall2_In_left _ _ _ M _ Hk) as (r & Hr & Hm).
  exists r. split; [exact Hr|]. cbn [record_matches] in Hm. tauto.
Qed.

Lemma str_inj (a b : Z) : Py.str a = Py.str b -> a = b.
Proof.
  unfold Py.str. intros E. apply DecimalZ.to_int_inj.
  assert (Hneg : forall k, Z.to_int k <> Decimal.Neg Decimal.Nil).
  { intros k H. pose proof (DecimalZ.to_of (Z.to_int k)) as H'.
    rewrite DecimalZ.of_to, H in H'. discriminate H'. }
  apply (f_equal NilZero.int_of_string) in E.
  rewrite !NilZero.isi in E by (apply to_int_not_nil || apply Hneg).
  now inversion E.
Qed.

Lemma grade_tag_inj (a b : Z) :
  ("Grade-" ++ Py.str a)%string = ("Grade-" ++ Py.str b)%string -> a = b.
Proof.
  cbn [String.append]. intros E. apply str_inj. now inversion E.
Qed.

Lemma nearest_percent_range (correct total pct : Z) :
  0 <= correct <= total -> 0 < total ->
  Z.abs (200 * correct - 2 * pct * total) <= total ->
  0 <= pct <= 100.
Proof. intros Hc Ht Hn. split; nia. Qed.

Lemma summary_of_in_range (all_rows : list row) (sid line : string) (j : Z)
    (block : list row) :
  student_block j block ->
  student_rows all_rows sid = block ->
  summary_of all_rows sid line ->
  summary_in_range sid line.
Proof.
  intros Hb Hrows (_ & correct & total & pct & reached &
                   Ht & Hpos & Hc & Hn & (r1 & Hr1 & Htag1) & Hall & Hline).
  rewrite Hrows in *.
  destruct (student_block_length _ _ Hb) as ([L1 L2] & _).
  destruct (student_block_facts _ _ Hb) as (Hf & _).
  exists correct, total, pct, reached. split; [exact Hline|].
  assert (Hct : 0 <= correct <= total).
  { rewrite Hc, Ht.
    pose proof (filter_length_le (fun r => is_correct (resp r) =? 1) block). lia. }
  split; [exact Hct|]. split; [lia|].
  split; [exact (nearest_percent_range _ _ _ Hct Hpos Hn)|].
  rewrite Forall_forall in Hf. split.
  - destruct Hb as (name & sg & bs & g & _ & ->).
    destruct (run_reaches_grade_9 sg bs g) as (r9 & Hr9 & Ht9).
    destruct (Hall _ (in_map _ _ _ Hr9)) as (g9 & E9 & Hle).
    cbn [resp] in E9. rewrite Ht9 in E9. apply grade_tag_inj in E9. lia.
  - destruct (Hf _ Hr1) as (_ & _ & g1 & Hg1 & E1).
    rewrite Htag1 in E1. apply grade_tag_inj in E1. lia.
Qed.

Lemma range_empty (n : Z) : n <= 0 -> Py.range 0 n = [].
Proof.
  intros H. unfold Py.range. replace (Z.to_nat (n - 0)) with 0%nat by lia.
  reflexivity.
Qed.

Lemma rows_data_lines (num_students : Z) (g : Py.rng) :
  Forall (fun r => data_line (csv_cells r)) (fst (generate_rows num_students g)).
Proof.
  destruct (generate_rows_blocks num_students g) as (blocks & -> & Hb).
  destruct (range_facts num_students) as (_ & Hpos & _).
  induction Hb as [|i block indices blocks Hblock _ IH]; [constructor|].
  inversion Hpos as [|? ? Hi Hpos']; subst.
  cbn [List.concat]. apply Forall_app. split; [|exact (IH Hpos')].
  destruct Hblock as (name & sg & bs & g' & Hsg & ->).
  destruct (simulate_run_records sg bs g') as (Hw & _).
  apply Forall_map. eapply Forall_impl; [|exact Hw].
  intros r [Hflag _]. unfold csv_cells, data_line.
  cbn [student_id student_name student_grade_level resp].
  do 9 eexists. split; [reflexivity|]. split; [|split].
  - exists i. split; [exact Hi | reflexivity].
  - exists sg. split; [exact Hsg | reflexivity].
  - destruct Hflag as [-> | ->]; [now left | now right].
Qed.

Lemma write_and_report_world (set_order : list string -> list string)
    (all_rows : list row) (num_students : Z) (output_file : string)
    (w : PyIO.world) (lines : list string) :
  all_rows <> [] ->
  PyIO.writable w output_file = true ->
  Forall2 (fun sid line => summary_line all_rows sid = inr line)
          (summary_students set_order all_rows) lines ->
  exists w',
    write_and_report set_order all_rows num_students output_file w
      = PyIO.Returned w' /\
    PyIO.writable w' = PyIO.writable w /\
    (forall p, PyIO.files w' p
               = if String.eqb p output_file
                 then Some (fieldnames :: map csv_cells all_rows)
                 else PyIO.files w p).
Proof.
  intros Hne Hw Hl. unfold write_and_report.
  destruct all_rows as [|r rows]; [contradiction|]. rewrite Hw.
  match goal with
  | |- context [print_summary _ _ ?w3] =>
      destruct (print_summary_lines _ _ _ Hl w3) as (w' & H1 & H2 & H3 & _)
  end.
  exists w'. split; [exact H1|]. split.
  - rewrite H2. reflexivity.
  - intros p. rewrite H3. reflexivity.
Qed.

Lemma report_line_count (set_order : list string -> list string)
    (num_students : Z) (output_file : string) (g : Py.rng) (w : PyIO.world) :
  0 < num_students ->
  PyIO.writable w output_file = true ->
  set_iteration set_order ->
  exists w' printed,
    generate_sample_data set_order num_students output_file g w
      = PyIO.Returned w' /\
    PyIO.stdout w' = PyIO.stdout w ++ printed /\
    List.length printed = (2 + Nat.min 3 (Z.to_nat num_students))%nat /\
    PyIO.files w' output_file
      = Some (fieldnames :: map csv_cells (fst (generate_rows num_students g))).
Proof.
  intros Hn Hw Hs.
  destruct (summary_lines_exist set_order num_students g Hs) as (lines & Hl).
  destruct (summary_students_facts set_order
              (fst (generate_rows num_students g)) Hs) as (_ & _ & Hlen).
  assert (H1 : Forall2 (fun sid line =>
                 summary_line (fst (generate_rows num_students g)) sid = inr line)
               (summary_students set_order (fst (generate_rows num_students g)))
               lines).
  { eapply Forall2_impl; [|exact Hl]. cbn beta. tauto. }
  destruct (write_and_report_lines set_order _ num_students output_file w lines
              (rows_nonempty num_students g Hn) Hw H1) as (w' & W1 & W2 & W3).
  destruct (generate_rows_blocks num_students g) as (blocks & E & Hb).
  destruct (range_facts num_students) as (Hnd & Hpos & _).
  pose proof (insertion_order_blocks _ _ Hb Hnd Hpos) as Hids.
  rewrite <- E in Hids. rewrite Hids, length_map, range_length in Hlen.
  replace (num_students - 0) with num_students in Hlen by lia.
  eexists w', _. rewrite generate_sample_data_unfold.
  split; [exact W1|]. split; [exact W3|]. split; [|exact W2].
  cbn [List.length app]. rewrite <- (Forall2_length H1), Hlen. reflexivity.
Qed.

(* ================================================================= *)
(** ** The budget always runs out *)

Lemma comps_trace_must_fail grade comps : forall t comp evs t',
  comps_trace grade t (comp :: comps) evs t' ->
  0 <= min_duration grade ->
  start_time + time_limit_seconds
    <= t + 6 * min_duration grade * Z.of_nat (List.length comps) ->
  exists c e, In (EvCheck grade c e) evs /\ time_limit_seconds <= e.
Proof.
  induction comps as [|c2 comps IH]; intros t comp evs t' H Hm Hb.
  - inversion H as [|? ? ? Hlim|? ? ? e1 t1 e2 ? Hlim Ha Hc]; subst.
    + eexists; eexists. split; [left; reflexivity | exact Hlim].
    + cbn [List.length] in Hb. lia.
  - inversion H as [|? ? ? Hlim|? ? ? e1 t1 e2 ? Hlim Ha Hc]; subst.
    + eexists; eexists. split; [left; reflexivity | exact Hlim].
    + destruct (answers_from_count _ _ _ _ _ _ Ha) as (_ & A2 & _).
      cbn [List.length question_keys] in A2.
      cbn [List.length] in Hb. rewrite Nat2Z.inj_succ, Z.mul_succ_r in Hb.
      change (Z.of_nat 6) with 6 in *.
      destruct (IH _ _ _ _ Hc Hm ltac:(lia)) as (c & e & Hin & He).
      exists c, e. split; [|exact He].
      right. apply in_or_app. now right.
Qed.

Lemma trace_budget_exhausted evs t' :
  grades_trace start_time (Py.range 4 13) evs t' ->
  time_limit_seconds <= t' - start_time /\
  exists comp e, In (EvCheck 12 comp e) evs /\ time_limit_seconds <= e.
Proof.
  intros H. split.
  - destruct (grades_trace_count _ _ _ _ H) as (_ & _ & Hlow).
    change (least_duration (Py.range 4 13)) with 5832 in Hlow.
    unfold time_limit_seconds in *. lia.
  - change (Py.range 4 13) with ([4; 5; 6; 7; 8; 9; 10; 11] ++ [12]) in H.
    destruct (grades_trace_app _ _ _ _ _ H) as (a & tm & b & -> & G1 & G2).
    destruct (grades_trace_count _ _ _ _ G1) as (_ & _ & C3).
    change (least_duration [4; 5; 6; 7; 8; 9; 10; 11]) with 4896 in C3.
    inversion G2 as [|? ? ? comps e1 t1 e2 ? Hd Hc Hg]; subst.
    cbn in Hd. inversion Hd; subst comps.
    destruct (comps_trace_must_fail _ _ _ _ _ _ Hc) as (c & e & Hin & He).
    + unfold min_duration. lia.
    + change (min_duration 12) with 39. cbn [List.length].
      unfold time_limit_seconds in *. lia.
    + exists c, e. split; [|exact He].
      apply in_or_app. right. apply in_or_app. now left.
Qed.

Lemma last_competency_beyond_210 :
  forallb (fun k : key =>
             match k with
             | (g, c, _, _) => negb ((g =? 12) && String.eqb c "GEOM-Trig")
             end)
          (firstn 210 all_keys) = true.
Proof. vm_compute. reflexivity. Qed.

Lemma trace_never_last_competency evs t' :
  grades_trace start_time (Py.range 4 13) evs t' ->
  forall q_type seq, ~ In (12, "GEOM-Trig", q_type, seq) (answered_keys evs).
Proof.
  intros H q_type seq Hin.
  pose proof (trace_at_most_210 _ _ H) as Hlen.
  pose proof (grades_trace_match _ _ _ _ H) as M.
  rewrite <- (Forall2_length M) in Hlen.
  destruct (grades_trace_prefix _ _ _ _ H) as (rest & E).
  fold all_keys in E.
  rewrite <- (firstn_length_app (answered_keys evs) rest), <- E in Hin.
  apply (firstn_In_more _ _ _ 210%nat Hlen) in Hin.
  pose proof last_competency_beyond_210 as F.
  rewrite forallb_forall in F. specialize (F _ Hin). cbn beta iota in F.
  rewrite Z.eqb_refl, String.eqb_refl in F. discriminate F.
Qed.

(* ================================================================= *)
(** * The claims of the specification *)

(** ** The performance simulator *)

(** C3.  The budget is tested between competencies only.  Whenever a test
    finds the budget exhausted, the rest of the log is one failed test for
    each remaining grade, taken at that grade's first competency with the
    clock unchanged: the competency loop is left, the grade loop runs on to
    grade 12, and no record is added after the failed test. *)
Theorem budget_break_leaves_grade_loop_running
    (student_grade : Z) (base_skill : float) (g : Py.rng)
    (pre post : list event) (grade : Z) (comp : string) (elapsed : Z) :
  log (simulate_run student_grade base_skill g)
    = pre ++ EvCheck grade comp elapsed :: post ->
  time_limit_seconds <= elapsed ->
  checks_between_competencies 0 (log (simulate_run student_grade base_skill g)) /\
  post = idle_grades elapsed (Py.range (grade + 1) 13) /\
  responses (simulate_run student_grade base_skill g) = records pre.
Proof.
  intros E Hl.
  destruct (simulate_run_trace student_grade base_skill g) as [T R].
  cbv zeta in T, R.
  split; [|rewrite R; eapply trace_after_exhaustion; eassumption].
  apply (grades_trace_between _ _ _ _ T 0%nat). exists 0%nat. reflexivity.
Qed.

Lemma budget_break_leaves_grade_loop_running_witness :
  skipn 204 (log (simulate_run 6 0.7 sample_rng))
    = idle_grades 5466 (Py.range (11 + 1) 13) /\
  responses (simulate_run 6 0.7 sample_rng)
    = records (firstn 203 (log (simulate_run 6 0.7 sample_rng))).
Proof.
  refine (proj2 (budget_break_leaves_grade_loop_running 6 0.7 sample_rng
            (firstn 203 (log (simulate_run 6 0.7 sample_rng)))
            (skipn 204 (log (simulate_run 6 0.7 sample_rng)))
            11 "CALC-Foundations" 5466 _ _)).
  - vm_compute. reflexivity.
  - vm_compute. discriminate.
Defined.

(** C5.  For a grade of 4..12 none of whose budget tests failed, the run
    holds exactly 24 records of that grade: the grade's four competencies
    in table order, each with its six questions in the order type 1, 2, 3
    and, within a type, sequence 1 then 2. *)
Theorem untruncated_grade_yields_24_records
    (student_grade : Z) (base_skill : float) (g : Py.rng) (grade : Z) :
  4 <= grade <= 12 ->
  (forall comp e,
     In (EvCheck grade comp e) (log (simulate_run student_grade base_skill g)) ->
     e < time_limit_seconds) ->
  exists c1 c2 c3 c4,
    dict_get GRADE_COMPETENCIES grade = Some [c1; c2; c3; c4] /\
    map question_id
      (records_of_grade grade
         (responses (simulate_run student_grade base_skill g)))
      = six_ids grade c1 ++ six_ids grade c2 ++
        six_ids grade c3 ++ six_ids grade c4 /\
    List.length
      (records_of_grade grade
         (responses (simulate_run student_grade base_skill g))) = 24%nat.
Proof.
  intros Hg Hlive.
  destruct (simulate_run_trace student_grade base_skill g) as [T R].
  cbv zeta in T, R.
  assert (Hin : In grade (Py.range 4 13)).
  { change (Py.range 4 13) with [4; 5; 6; 7; 8; 9; 10; 11; 12]. cbn [In]. lia. }
  assert (Hnd : NoDup (Py.range 4 13)).
  { change (Py.range 4 13) with [4; 5; 6; 7; 8; 9; 10; 11; 12].
    repeat constructor; cbn [In]; lia. }
  pose proof (grades_trace_grade grade _ _ _ _ T Hnd Hin Hlive) as Hids.
  rewrite <- R in Hids.
  destruct (dict_get GRADE_COMPETENCIES grade) as [comps|] eqn:Hd.
  - destruct (competencies_of_grade _ _ Hd) as [_ Hlen].
    destruct comps as [|c1 [|c2 [|c3 [|c4 [|? ?]]]]]; try discriminate.
    exists c1, c2, c3, c4. split; [reflexivity|].
    rewrite (grade_keys_ids _ _ Hd) in Hids. cbn [flat_map] in Hids.
    rewrite app_nil_r in Hids. split; [exact Hids|].
    rewrite <- (length_map question_id), Hids. reflexivity.
  - exfalso. pose proof all_grades_in_table as Ht.
    rewrite Forall_forall in Ht. exact (Ht _ Hin Hd).
Qed.

Lemma untruncated_grade_yields_24_records_witness :
  exists c1 c2 c3 c4,
    dict_get GRADE_COMPETENCIES 4 = Some [c1; c2; c3; c4] /\
    map question_id
      (records_of_grade 4 (responses (simulate_run 6 0.7 sample_rng)))
      = six_ids 4 c1 ++ six_ids 4 c2 ++ six_ids 4 c3 ++ six_ids 4 c4 /\
    List.length
      (records_of_grade 4 (responses (simulate_run 6 0.7 sample_rng))) = 24%nat.
Proof.
  apply (untruncated_grade_yields_24_records 6 0.7 sample_rng 4).
  - lia.
  - apply grade_untruncated_spec. vm_compute. reflexivity.
Defined.

(** C6.  Along a run the clock starts at 09:00:00 and each question adds
    its duration, a draw of 15..30 seconds plus 3 seconds per grade above
    4; each record is stamped with the clock after that addition, so the
    clock readings and the ISO timestamps of the records never decrease. *)
Theorem timestamps_never_decrease
    (student_grade : Z) (base_skill : float) (g : Py.rng) :
  clock_chain start_time (log (simulate_run student_grade base_skill g)) /\
  map timestamp (responses (simulate_run student_grade base_skill g))
    = map Py.isoformat
        (answer_clocks (log (simulate_run student_grade base_skill g))) /\
  StronglySorted Z.le
    (answer_clocks (log (simulate_run student_grade base_skill g))) /\
  StronglySorted str_le
    (map timestamp (responses (simulate_run student_grade base_skill g))).
Proof.
  destruct (simulate_run_trace student_grade base_skill g) as [T R].
  cbv zeta in T, R.
  destruct (grades_trace_chain _ _ _ _ T) as (C1 & _ & C3).
  destruct (clock_chain_sorted _ _ C1) as (S1 & S2 & S3).
  rewrite R, S3.
  split; [exact C1|]. split; [reflexivity|]. split; [exact S1|].
  apply isoformat_sorted; [assumption|].
  rewrite Forall_forall in S2, C3 |- *. intros c Hc.
  split; [exact (S2 c Hc) | exact (C3 c Hc)].
Qed.

(** C7.  No two records of a run share a question identifier: the run
    answers pairwise distinct (grade, competency, type, sequence)
    combinations, each record carries the identifier of its combination,
    and over the whole bank the identifier determines the combination. *)
Theorem question_ids_unique
    (student_grade : Z) (base_skill : float) (g : Py.rng) :
  NoDup (map question_id (responses (simulate_run student_grade base_skill g))) /\
  NoDup (answered_keys (log (simulate_run student_grade base_skill g))) /\
  map question_id (responses (simulate_run student_grade base_skill g))
    = map id_of_key
        (answered_keys (log (simulate_run student_grade base_skill g))) /\
  incl (answered_keys (log (simulate_run student_grade base_skill g))) all_keys /\
  (forall k1 k2 : key, In k1 all_keys -> In k2 all_keys ->
     id_of_key k1 = id_of_key k2 -> k1 = k2).
Proof.
  destruct (simulate_run_trace student_grade base_skill g) as [T R].
  cbv zeta in T, R.
  destruct (grades_trace_keys _ _ _ _ T) as (K1 & K2).
  fold all_keys in K1. rewrite R, K2.
  pose proof all_ids_distinct as Hd.
  split; [|split; [|split; [reflexivity|split]]].
  - eapply subseq_NoDup; [apply subseq_map; exact K1 | exact Hd].
  - eapply subseq_NoDup; [exact K1 | eapply NoDup_map_inv; exact Hd].
  - intros k Hk. eapply subseq_In; eassumption.
  - apply NoDup_map_injective. exact Hd.
Qed.

(** C10.  The budget always runs out before the traversal completes: 35
    competencies at the least durations already take 5598 seconds, more
    than the 5400 allowed, so a run never holds more than 210 records,
    fewer than the 216 of a complete traversal.  Every run ends with the
    clock at or past the limit, meets a failed budget test in grade 12,
    and answers no question of the last competency of grade 12. *)
Theorem budget_exhausted_before_last_competency
    (student_grade : Z) (base_skill : float) (g : Py.rng) :
  least_duration (Py.range 4 12) + 18 * min_duration 12 = 5598 /\
  time_limit_seconds < 5598 /\
  (List.length (responses (simulate_run student_grade base_skill g)) <= 210)%nat /\
  (List.length (responses (simulate_run student_grade base_skill g))
     < List.length all_keys)%nat /\
  time_limit_seconds
    <= current_time (simulate_run student_grade base_skill g) - start_time /\
  (exists comp elapsed,
     In (EvCheck 12 comp elapsed)
        (log (simulate_run student_grade base_skill g)) /\
     time_limit_seconds <= elapsed) /\
  (forall q_type seq,
     ~ In (12, "GEOM-Trig", q_type, seq)
          (answered_keys (log (simulate_run student_grade base_skill g)))) /\
  dict_get GRADE_COMPETENCIES 12
    = Some ["FUNC-Advanced"; "CALC-Foundations"; "DATA-Stats"; "GEOM-Trig"].
Proof.
  destruct (simulate_run_trace student_grade base_skill g) as [T R].
  cbv zeta in T, R.
  pose proof (trace_at_most_210 _ _ T) as H. rewrite <- R in H.
  destruct (trace_budget_exhausted _ _ T) as (X1 & X2).
  pose proof (trace_never_last_competency _ _ T) as X3.
  rewrite all_keys_count.
  split; [reflexivity|]. split; [reflexivity|].
  split; [exact H|]. split; [lia|].
  split; [exact X1|]. split; [exact X2|]. split; [exact X3 | reflexivity].
Qed.

(** C2.  The success probability of a question is the base rate chosen by
    the grade difference (at most -2: 0.95; -1 or 0: skill + 0.1; 1: skill
    - 0.05; 2: skill - 0.15; above 2: the larger of 0.25 and skill minus a
    tenth of the difference), less 0.05 for a question of type 3, clamped
    by [max(0.15, min(0.98, .))]; whatever the skill, the result lies in
    [0.15, 0.98]. *)
Theorem success_probability_piecewise_and_clamped
    (grade student_grade : Z) (base_skill : float) (q_type : Z) :
  (grade - student_grade <= -2 ->
     base_rate (grade - student_grade) base_skill = 0.95%float) /\
  (grade - student_grade = -1 \/ grade - student_grade = 0 ->
     base_rate (grade - student_grade) base_skill
       = PrimFloat.add base_skill 0.1) /\
  (grade - student_grade = 1 ->
     base_rate (grade - student_grade) base_skill
       = PrimFloat.sub base_skill 0.05) /\
  (grade - student_grade = 2 ->
     base_rate (grade - student_grade) base_skill
       = PrimFloat.sub base_skill 0.15) /\
  (2 < grade - student_grade ->
     base_rate (grade - student_grade) base_skill
       = Py.max 0.25
           (PrimFloat.sub base_skill
              (PrimFloat.mul (Py.float_of_int (grade - student_grade)) 0.1))) /\
  prob_correct grade student_grade base_skill q_type
    = Py.max 0.15
        (Py.min 0.98
           (if q_type =? 3
            then PrimFloat.sub (base_rate (grade - student_grade) base_skill) 0.05
            else base_rate (grade - student_grade) base_skill)) /\
  PrimFloat.leb 0.15 (prob_correct grade student_grade base_skill q_type) = true /\
  PrimFloat.leb (prob_correct grade student_grade base_skill q_type) 0.98 = true.
Proof.
  unfold base_rate.
  repeat match goal with
  | |- (_ -> _) /\ _ => split; [intros H|]
  end.
  - destruct (Z.leb_spec (grade - student_grade) (-2)); [reflexivity | lia].
  - destruct (Z.leb_spec (grade - student_grade) (-2)); [lia|].
    destruct (Z.leb_spec (grade - student_grade) 0); [reflexivity | lia].
  - rewrite H. reflexivity.
  - rewrite H. reflexivity.
  - destruct (Z.leb_spec (grade - student_grade) (-2)); [lia|].
    destruct (Z.leb_spec (grade - student_grade) 0); [lia|].
    destruct (Z.eqb_spec (grade - student_grade) 1); [lia|].
    destruct (Z.eqb_spec (grade - student_grade) 2); [lia|].
    reflexivity.
  - split; [reflexivity|]. apply clamp_probability_range.
Qed.

(** ** The question identifier *)

(** C8.  For a grade of 4..12, a competency tag, a type of 1..3 and a
    sequence number of 1..2, the identifier is the text
    [G<grade>_<competency>_T<type>_<seq>] with the numbers in decimal and
    the sequence number written on two digits with a leading zero. *)
Theorem question_id_format
    (grade : Z) (competency : string) (q_type seq : Z) :
  4 <= grade <= 12 -> 1 <= q_type <= 3 -> 1 <= seq <= 2 ->
  generate_question_id grade competency q_type seq
    = ("G" ++ Py.str grade ++ "_" ++ competency ++ "_T" ++ Py.str q_type ++
       "_0" ++ Py.str seq)%string /\
  String.length (Py.format_0d 2 seq) = 2%nat /\
  (String.length (Py.str grade) <= 2)%nat /\
  String.length (Py.str q_type) = 1%nat /\
  String.length (Py.str seq) = 1%nat.
Proof.
  intros Hg Ht Hs.
  assert (Eg : In grade [4; 5; 6; 7; 8; 9; 10; 11; 12]) by (cbn [In]; lia).
  assert (Et : In q_type [1; 2; 3]) by (cbn [In]; lia).
  assert (Es : In seq [1; 2]) by (cbn [In]; lia).
  cbn [In] in Eg, Et, Es.
  repeat (destruct Es as [<-|Es]; [|]); try contradiction;
  repeat (destruct Et as [<-|Et]; [|]); try contradiction;
  repeat (destruct Eg as [<-|Eg]; [|]); try contradiction;
  (split; [reflexivity | cbn; repeat split; lia]).
Qed.

Lemma question_id_format_witness :
  generate_question_id 4 "NUM-MultiDigit" 1 1
    = ("G" ++ Py.str 4 ++ "_" ++ "NUM-MultiDigit" ++ "_T" ++ Py.str 1 ++
       "_0" ++ Py.str 1)%string /\
  String.length (Py.format_0d 2 1) = 2%nat /\
  (String.length (Py.str 4) <= 2)%nat /\
  String.length (Py.str 1) = 1%nat /\
  String.length (Py.str 1) = 1%nat.
Proof.
  apply (question_id_format 4 "NUM-MultiDigit" 1 1); lia.
Defined.

(** ** The data set and its report *)

(** C1, as the specification states it, fails: with student count 0 no
    file is written and nothing is printed. *)
Lemma empty_run_writes_nothing :
  ~ empty_run_writes_header insertion_order sample_path sample_rng empty_world.
Proof.
  intros (w' & H & F & _).
  rewrite generate_sample_data_unfold in H.
  change (fst (generate_rows 0 sample_rng)) with (@nil row) in H.
  cbn [write_and_report] in H. inversion H; subst w'.
  cbn in F. discriminate F.
Qed.

(** C1, amended.  With student count 0 the row list is empty, so the guard
    [if all_rows:] skips the writing and the printing: the call returns
    with the files and the console as they were. *)
Theorem empty_run_leaves_world_unchanged
    (set_order : list string -> list string) (output_file : string)
    (g : Py.rng) (w : PyIO.world) :
  fst (generate_rows 0 g) = [] /\
  generate_sample_data set_order 0 output_file g w = PyIO.Returned w.
Proof.
  split; [reflexivity|].
  rewrite generate_sample_data_unfold. reflexivity.
Qed.

(** C4, as the specification states it, fails: the students of the summary
    are the first three of the set's iteration order, which need not be
    the order of the rows.  With four students and a set iterated in
    reverse the summary covers STU004, STU003 and STU002. *)
Lemma summary_not_first_three :
  set_iteration reverse_order /\
  summary_students reverse_order (fst (generate_rows 4 sample_rng))
    = ["STU004"; "STU003"; "STU002"] /\
  ~ summary_covers_first_three reverse_order 4 sample_rng.
Proof.
  split; [exact reverse_order_set_iteration|]. split.
  - vm_compute. reflexivity.
  - unfold summary_covers_first_three. vm_compute. discriminate.
Qed.

(** C4, amended.  For a positive student count and a writable path the
    call writes the header and one line per row, then prints the row count
    with the student count, the path, and one line for each of the first
    three student ids in the iteration order of the set of ids (all of
    them when there are fewer): distinct ids of the rows, each with its
    number of correct rows over its number of rows, that ratio as a
    percentage rounded to the nearest integer, and the highest grade among
    its rows. *)
Theorem summary_printed_after_writing
    (set_order : list string -> list string) (num_students : Z)
    (output_file : string) (g : Py.rng) (w : PyIO.world) :
  0 < num_students ->
  PyIO.writable w output_file = true ->
  set_iteration set_order ->
  exists lines w',
    generate_sample_data set_order num_students output_file g w
      = PyIO.Returned w' /\
    PyIO.files w' output_file
      = Some (fieldnames :: map csv_cells (fst (generate_rows num_students g))) /\
    PyIO.stdout w'
      = PyIO.stdout w ++
        [("Generated " ++
          Py.str (Z.of_nat (List.length (fst (generate_rows num_students g)))) ++
          " responses for " ++ Py.str num_students ++ " students")%string;
         ("Saved to: " ++ output_file)%string] ++ lines /\
    Forall2 (summary_of (fst (generate_rows num_students g)))
            (summary_students set_order (fst (generate_rows num_students g)))
            lines /\
    NoDup (summary_students set_order (fst (generate_rows num_students g))) /\
    List.length (summary_students set_order (fst (generate_rows num_students g)))
      = Nat.min 3 (List.length
                     (insertion_order
                        (map student_id (fst (generate_rows num_students g))))).
Proof.
  intros Hn Hw Hs.
  destruct (summary_lines_exist set_order num_students g Hs) as (lines & Hl).
  destruct (summary_students_facts set_order
              (fst (generate_rows num_students g)) Hs) as (Hnd & _ & Hlen).
  assert (H1 : Forall2 (fun sid line =>
                 summary_line (fst (generate_rows num_students g)) sid = inr line)
               (summary_students set_order (fst (generate_rows num_students g)))
               lines).
  { eapply Forall2_impl; [|exact Hl]. cbn beta. tauto. }
  assert (H2 : Forall2 (summary_of (fst (generate_rows num_students g)))
               (summary_students set_order (fst (generate_rows num_students g)))
               lines).
  { eapply Forall2_impl; [|exact Hl]. cbn beta. tauto. }
  destruct (write_and_report_lines set_order _ num_students output_file w lines
              (rows_nonempty num_students g Hn) Hw H1) as (w' & W1 & W2 & W3).
  exists lines, w'. rewrite generate_sample_data_unfold.
  split; [exact W1|]. split; [exact W2|]. split; [exact W3|].
  split; [exact H2|]. split; [exact Hnd | exact Hlen].
Qed.

Lemma summary_printed_after_writing_witness :
  exists lines w',
    generate_sample_data insertion_order 2 sample_path sample_rng empty_world
      = PyIO.Returned w' /\
    PyIO.files w' sample_path
      = Some (fieldnames :: map csv_cells (fst (generate_rows 2 sample_rng))) /\
    PyIO.stdout w'
      = PyIO.stdout empty_world ++
        [("Generated " ++
          Py.str (Z.of_nat (List.length (fst (generate_rows 2 sample_rng)))) ++
          " responses for " ++ Py.str 2 ++ " students")%string;
         ("Saved to: " ++ sample_path)%string] ++ lines /\
    Forall2 (summary_of (fst (generate_rows 2 sample_rng)))
            (summary_students insertion_order (fst (generate_rows 2 sample_rng)))
            lines /\
    NoDup (summary_students insertion_order (fst (generate_rows 2 sample_rng))) /\
    List.length (summary_students insertion_order (fst (generate_rows 2 sample_rng)))
      = Nat.min 3 (List.length
                     (insertion_order
                        (map student_id (fst (generate_rows 2 sample_rng))))).
Proof.
  apply (summary_printed_after_writing insertion_order 2 sample_path
           sample_rng empty_world).
  - lia.
  - reflexivity.
  - exact insertion_order_set_iteration.
Defined.

(** C9.  The summary never divides by zero: every run of the simulator
    holds at least one record (the six of the first competency of grade 4,
    started with the clock at zero); every student id taken from the rows
    has at least one row; and the call never ends in
    [ZeroDivisionError]. *)
Theorem summary_never_divides_by_zero
    (student_grade : Z) (base_skill : float) (g : Py.rng)
    (set_order : list string -> list string) (num_students : Z)
    (output_file : string) (w w' : PyIO.world) (sid : string) :
  (1 <= List.length (responses (simulate_run student_grade base_skill g)))%nat /\
  (In sid (map student_id (fst (generate_rows num_students g))) ->
   0 < Z.of_nat (List.length
                   (student_rows (fst (generate_rows num_students g)) sid))) /\
  generate_sample_data set_order num_students output_file g w
    <> PyIO.Raised PyIO.ZeroDivisionError w'.
Proof.
  split; [|split].
  - destruct (simulate_run_records student_grade base_skill g) as (_ & H & _).
    lia.
  - apply student_rows_nonempty.
  - rewrite generate_sample_data_unfold. unfold write_and_report.
    destruct (fst (generate_rows num_students g)) as [|r rows]; [discriminate|].
    destruct (PyIO.writable w output_file).
    + apply print_summary_never_divides_by_zero.
    + unfold PyIO.open_error.
      destruct (PyIO.has_nul output_file); discriminate.
Qed.

(* ================================================================= *)
(** * Further properties of the code *)

(** ** The performance simulator *)

(** X1.  The clamp of line 85 maps every float below 0.15 to 0.15, every
    float above 0.98 to 0.98, leaves the floats strictly between the two
    bounds as they are, and turns a NaN into 0.98 (both comparisons with a
    NaN fail, so [min] keeps 0.98 and [max] then prefers it). *)
Theorem clamp_probability_cases (p : float) :
  (PrimFloat.ltb p 0.15 = true -> clamp_probability p = 0.15%float) /\
  (PrimFloat.ltb 0.98 p = true -> clamp_probability p = 0.98%float) /\
  (PrimFloat.ltb 0.15 p = true -> PrimFloat.ltb p 0.98 = true ->
     clamp_probability p = p) /\
  (Prim2SF p = S754_nan -> clamp_probability p = 0.98%float).
Proof.
  unfold clamp_probability, Py.max, Py.min. repeat split.
  - intros H. destruct (float_below_low p H) as [H1 H2]. now rewrite H1, H2.
  - intros H. rewrite (float_above_high p H). reflexivity.
  - intros H1 H2. now rewrite H2, H1.
  - intros H. rewrite (float_nan_unordered p 0.98 H). reflexivity.
Qed.

Lemma clamp_probability_cases_witness :
  clamp_probability 0.05 = 0.15%float /\
  clamp_probability 1.5 = 0.98%float /\
  clamp_probability 0.5 = 0.5%float /\
  clamp_probability PrimFloat.nan = 0.98%float.
Proof.
  split; [|split; [|split]].
  - apply (proj1 (clamp_probability_cases 0.05)). reflexivity.
  - apply (proj1 (proj2 (clamp_probability_cases 1.5))). reflexivity.
  - apply (proj1 (proj2 (proj2 (clamp_probability_cases 0.5)))); reflexivity.
  - apply (proj2 (proj2 (proj2 (clamp_probability_cases PrimFloat.nan)))).
    reflexivity.
Defined.

(** X2.  The records of a run are, in order, those of the first questions
    of the bank (grade, then competency in table order, then type, then
    sequence): the time limit only ever cuts the tail.  Each record carries
    the identifier, the grade tag, the competency tag and the type tag of
    its question, and a correctness flag that is 0 or 1. *)
Theorem records_follow_the_bank
    (student_grade : Z) (base_skill : float) (g : Py.rng) :
  Forall2 record_matches
    (firstn (List.length (responses (simulate_run student_grade base_skill g)))
            all_keys)
    (responses (simulate_run student_grade base_skill g)) /\
  incl (firstn 144 all_keys)
       (firstn (List.length
                  (responses (simulate_run student_grade base_skill g)))
               all_keys).
Proof.
  split; [apply simulate_run_follows_bank|].
  destruct (simulate_run_trace student_grade base_skill g) as [T R].
  cbv zeta in T, R.
  pose proof (trace_at_least_144 _ _ T) as Hlen. rewrite <- R in Hlen.
  intros k Hk. eapply firstn_In_more; eassumption.
Qed.

(** X3.  Whatever the student and the draws, a run holds a multiple of six
    records, at least the 144 of grades 4 to 9 and at most 210.  Both
    bounds are reached: the first when every question takes its longest,
    the second when every question takes its shortest. *)
Theorem record_count_bounds
    (student_grade : Z) (base_skill : float) (g : Py.rng) :
  (144 <= List.length (responses (simulate_run student_grade base_skill g))
       <= 210)%nat /\
  (exists k, List.length (responses (simulate_run student_grade base_skill g))
             = (6 * k)%nat) /\
  List.length (responses (simulate_run student_grade base_skill slowest_rng))
    = 144%nat /\
  List.length (responses (simulate_run student_grade base_skill fastest_rng))
    = 210%nat.
Proof.
  destruct (simulate_run_trace student_grade base_skill g) as [T R].
  cbv zeta in T, R.
  destruct (simulate_run_records student_grade base_skill g) as (_ & [_ H] & K).
  split; [|split; [exact K|]].
  - split; [|exact H]. rewrite R. eapply trace_at_least_144; exact T.
  - split; vm_compute; reflexivity.
Qed.

(** X4.  Every run ends past the 90-minute limit, and by no more than 323
    seconds: the limit is only tested before a competency, so the six
    questions under way are finished.  The last record bears that final
    clock reading, between 10:30:00 and 10:35:23. *)
Theorem final_clock_overshoot
    (student_grade : Z) (base_skill : float) (g : Py.rng) :
  time_limit_seconds
    <= current_time (simulate_run student_grade base_skill g) - start_time
    <= time_limit_seconds + 323 /\
  last (map timestamp (responses (simulate_run student_grade base_skill g)))
       EmptyString
    = Py.isoformat (current_time (simulate_run student_grade base_skill g)).
Proof.
  destruct (simulate_run_trace student_grade base_skill g) as [T R].
  cbv zeta in T, R.
  destruct (simulate_run_records student_grade base_skill g) as (_ & [Hlen _] & _).
  destruct (grades_trace_count _ _ _ _ T) as (_ & _ & Hlow).
  change (least_duration (Py.range 4 13)) with 5832 in Hlow.
  destruct (grades_trace_chain _ _ _ _ T) as (C1 & C2 & C3).
  destruct (clock_chain_sorted _ _ C1) as (_ & _ & S3).
  rewrite clock_after_last in C2.
  pose proof (last_bounded _ start_time latest_answer C3
                ltac:(unfold latest_answer; lia)) as Hhigh.
  rewrite C2 in Hhigh. unfold latest_answer, time_limit_seconds in *.
  split; [lia|].
  rewrite R, S3, <- C2.
  rewrite R in Hlen. rewrite <- (length_map timestamp), S3, length_map in Hlen.
  destruct (answer_clocks (log (simulate_run student_grade base_skill g)))
    as [|c l]; [cbn [List.length] in Hlen; lia|].
  apply last_map_cons.
Qed.

(** ** The data set *)

(** X5.  The rows come student by student: the rows of the student of
    index 0, then those of index 1, and so on, each group being the records
    of one simulated attempt under one identifier, one name made of a first
    name and a last name of the two pools, and one grade level of 4..12.
    The identifiers met along the rows are STU001, STU002, ... in that
    order, and no two students share one, also beyond 999 students. *)
Theorem rows_grouped_by_student (num_students : Z) (g : Py.rng) :
  exists blocks,
    fst (generate_rows num_students g) = List.concat blocks /\
    Forall2 cohort_block (Py.range 0 num_students) blocks /\
    insertion_order (map student_id (fst (generate_rows num_students g)))
      = map student_id_of (Py.range 0 num_students) /\
    NoDup (map student_id_of (Py.range 0 num_students)).
Proof.
  destruct (generate_rows_cohort num_students g) as (blocks & E & Hb).
  destruct (range_facts num_students) as (Hnd & Hpos & _).
  assert (Hs : Forall2 student_block (Py.range 0 num_students) blocks).
  { eapply Forall2_impl; [|exact Hb]. apply cohort_block_student_block. }
  exists blocks. split; [exact E|]. split; [exact Hb|]. split.
  - rewrite E. now apply insertion_order_blocks.
  - now apply student_ids_distinct.
Qed.

(** X6.  For [n] students (none when [n] is negative) the data set holds
    between 144 n and 210 n rows, a multiple of six. *)
Theorem row_count_bounds (num_students : Z) (g : Py.rng) :
  144 * Z.max 0 num_students
    <= Z.of_nat (List.length (fst (generate_rows num_students g)))
    <= 210 * Z.max 0 num_students /\
  exists k, List.length (fst (generate_rows num_students g)) = (6 * k)%nat.
Proof.
  destruct (generate_rows_blocks num_students g) as (blocks & -> & Hb).
  destruct (blocks_length _ _ Hb) as (H & K).
  rewrite range_length in H. split; [lia | exact K].
Qed.

(** X7.  A student count of zero or less does nothing at all: the loop
    over [range(num_students)] has no turn, the row list stays empty, and
    the call returns without writing a file or printing a line. *)
Theorem nonpositive_count_does_nothing
    (set_order : list string -> list string) (num_students : Z)
    (output_file : string) (g : Py.rng) (w : PyIO.world) :
  num_students <= 0 ->
  fst (generate_rows num_students g) = [] /\
  generate_sample_data set_order num_students output_file g w
    = PyIO.Returned w.
Proof.
  intros Hn.
  assert (E : fst (generate_rows num_students g) = []).
  { unfold generate_rows. now rewrite (range_empty _ Hn). }
  split; [exact E|].
  rewrite generate_sample_data_unfold, E. reflexivity.
Qed.

Lemma nonpositive_count_does_nothing_witness :
  fst (generate_rows (-3) sample_rng) = [] /\
  generate_sample_data insertion_order (-3) sample_path sample_rng empty_world
    = PyIO.Returned empty_world.
Proof.
  apply (nonpositive_count_does_nothing insertion_order (-3) sample_path
           sample_rng empty_world).
  lia.
Defined.

(** X8.  When there is at least one student and [open] fails on the
    output path, the call ends in the exception of [open] before any line
    is printed, the files and the console being as they were: a
    [ValueError] when the path holds a NUL character, an [OSError]
    otherwise. *)
Theorem unwritable_path_raises
    (set_order : list string -> list string) (num_students : Z)
    (output_file : string) (g : Py.rng) (w : PyIO.world) :
  0 < num_students ->
  PyIO.writable w output_file = false ->
  generate_sample_data set_order num_students output_file g w
    = PyIO.Raised (if PyIO.has_nul output_file
                   then PyIO.ValueError else PyIO.OSError) w.
Proof.
  intros Hn Hw. rewrite generate_sample_data_unfold.
  pose proof (rows_nonempty num_students g Hn) as Hne.
  unfold write_and_report.
  destruct (fst (generate_rows num_students g)); [contradiction|].
  rewrite Hw. reflexivity.
Qed.

Lemma unwritable_path_raises_witness :
  generate_sample_data insertion_order 1 sample_path sample_rng locked_world
    = PyIO.Raised (if PyIO.has_nul sample_path
                   then PyIO.ValueError else PyIO.OSError) locked_world /\
  generate_sample_data insertion_order 1 (String Ascii.zero sample_path)
    sample_rng locked_world
    = PyIO.Raised (if PyIO.has_nul (String Ascii.zero sample_path)
                   then PyIO.ValueError else PyIO.OSError) locked_world /\
  PyIO.has_nul sample_path = false /\
  PyIO.has_nul (String Ascii.zero sample_path) = true.
Proof.
  split; [|split; [|split; reflexivity]].
  - apply (unwritable_path_raises insertion_order 1 sample_path sample_rng
             locked_world); [lia | reflexivity].
  - apply (unwritable_path_raises insertion_order 1
             (String Ascii.zero sample_path) sample_rng locked_world);
      [lia | reflexivity].
Defined.

(** X9.  On success the file at the output path holds the header and then
    one line per row, in row order, each of nine cells like the header:
    the first is a student identifier, the third the decimal of a grade
    level of 4..12, the eighth is 0 or 1.  No other file is touched and
    what can be opened for writing is unchanged. *)
Theorem written_file_shape
    (set_order : list string -> list string) (num_students : Z)
    (output_file : string) (g : Py.rng) (w : PyIO.world) :
  0 < num_students ->
  PyIO.writable w output_file = true ->
  set_iteration set_order ->
  exists w' data,
    generate_sample_data set_order num_students output_file g w
      = PyIO.Returned w' /\
    PyIO.files w' output_file = Some (fieldnames :: data) /\
    data = map csv_cells (fst (generate_rows num_students g)) /\
    Forall data_line data /\
    Forall (fun cells => List.length cells = List.length fieldnames) data /\
    (forall p, p <> output_file -> PyIO.files w' p = PyIO.files w p) /\
    PyIO.writable w' = PyIO.writable w.
Proof.
  intros Hn Hw Hs.
  destruct (summary_lines_exist set_order num_students g Hs) as (lines & Hl).
  assert (H1 : Forall2 (fun sid line =>
                 summary_line (fst (generate_rows num_students g)) sid = inr line)
               (summary_students set_order (fst (generate_rows num_students g)))
               lines).
  { eapply Forall2_impl; [|exact Hl]. cbn beta. tauto. }
  destruct (write_and_report_world set_order _ num_students output_file w lines
              (rows_nonempty num_students g Hn) Hw H1) as (w' & W1 & W2 & W3).
  pose proof (rows_data_lines num_students g) as Hd.
  exists w', (map csv_cells (fst (generate_rows num_students g))).
  rewrite generate_sample_data_unfold.
  split; [exact W1|]. split.
  { rewrite W3, String.eqb_refl. reflexivity. }
  split; [reflexivity|]. split; [now apply Forall_map|]. split.
  { apply Forall_map. apply Forall_forall. intros r _. reflexivity. }
  split; [|exact W2].
  intros p Hp. rewrite W3.
  destruct (String.eqb_spec p output_file); [contradiction | reflexivity].
Qed.

Lemma written_file_shape_witness :
  exists w' data,
    generate_sample_data insertion_order 1 sample_path sample_rng empty_world
      = PyIO.Returned w' /\
    PyIO.files w' sample_path = Some (fieldnames :: data) /\
    data = map csv_cells (fst (generate_rows 1 sample_rng)) /\
    Forall data_line data /\
    Forall (fun cells => List.length cells = List.length fieldnames) data /\
    (forall p, p <> sample_path ->
       PyIO.files w' p = PyIO.files empty_world p) /\
    PyIO.writable w' = PyIO.writable empty_world.
Proof.
  apply (written_file_shape insertion_order 1 sample_path sample_rng empty_world).
  - lia.
  - reflexivity.
  - exact insertion_order_set_iteration.
Defined.

(** X10.  For every student identifier of the rows the summary line is
    produced without an exception, and its numbers stay in range: the
    correct answers are between 0 and the total, the total is between 144
    and 210, the percentage between 0 and 100, and the grade reached
    between 9 and 12. *)
Theorem summary_line_in_range (num_students : Z) (g : Py.rng) (sid : string) :
  In sid (map student_id (fst (generate_rows num_students g))) ->
  exists line,
    summary_line (fst (generate_rows num_students g)) sid = inr line /\
    summary_in_range sid line.
Proof.
  intros Hin.
  destruct (generate_rows_blocks num_students g) as (blocks & E & Hb).
  destruct (range_facts num_students) as (Hnd & Hpos & _).
  pose proof Hin as Hin'. rewrite E in Hin'.
  destruct (student_rows_of_blocks _ _ Hb Hnd Hpos sid Hin')
    as (j & block & _ & _ & Hblock & Hrows).
  rewrite <- E in Hrows.
  destruct (summary_line_of_block _ sid j block Hblock Hrows Hin)
    as (line & L1 & L2).
  exists line. split; [exact L1|].
  eapply summary_of_in_range; eassumption.
Qed.

Lemma summary_line_in_range_witness :
  exists line,
    summary_line (fst (generate_rows 1 sample_rng)) "STU001" = inr line /\
    summary_in_range "STU001" line.
Proof.
  apply (summary_line_in_range 1 sample_rng "STU001").
  vm_compute. left. reflexivity.
Defined.

(** X11.  On success the call prints exactly two lines and then one line
    per summarised student, three of them or as many as there are students
    when there are fewer. *)
Theorem report_has_two_plus_three_lines
    (set_order : list string -> list string) (num_students : Z)
    (output_file : string) (g : Py.rng) (w : PyIO.world) :
  0 < num_students ->
  PyIO.writable w output_file = true ->
  set_iteration set_order ->
  exists w' printed,
    generate_sample_data set_order num_students output_file g w
      = PyIO.Returned w' /\
    PyIO.stdout w' = PyIO.stdout w ++ printed /\
    List.length printed = (2 + Nat.min 3 (Z.to_nat num_students))%nat.
Proof.
  intros Hn Hw Hs.
  destruct (report_line_count set_order num_students output_file g w Hn Hw Hs)
    as (w' & printed & H1 & H2 & H3 & _).
  exists w', printed. auto.
Qed.

Lemma report_has_two_plus_three_lines_witness :
  exists w' printed,
    generate_sample_data insertion_order 2 sample_path sample_rng empty_world
      = PyIO.Returned w' /\
    PyIO.stdout w' = PyIO.stdout empty_world ++ printed /\
    List.length printed = (2 + Nat.min 3 (Z.to_nat 2))%nat.
Proof.
  apply (report_has_two_plus_three_lines insertion_order 2 sample_path
           sample_rng empty_world).
  - lia.
  - reflexivity.
  - exact insertion_order_set_iteration.
Defined.

(** X12.  Run as a program, with its 30 students and its default path
    writable, the script writes the header and between 4320 and 6300 data
    lines to [data/sample_quiz_results.csv] and prints exactly five
    lines. *)
Theorem main_writes_and_prints
    (set_order : list string -> list string) (g : Py.rng) (w : PyIO.world) :
  PyIO.writable w "data/sample_quiz_results.csv" = true ->
  set_iteration set_order ->
  exists w' printed data,
    main set_order g w = PyIO.Returned w' /\
    PyIO.stdout w' = PyIO.stdout w ++ printed /\
    List.length printed = 5%nat /\
    PyIO.files w' "data/sample_quiz_results.csv" = Some (fieldnames :: data) /\
    4320 <= Z.of_nat (List.length data) <= 6300.
Proof.
  intros Hw Hs. unfold main.
  destruct (report_line_count set_order 30 "data/sample_quiz_results.csv" g w
              ltac:(lia) Hw Hs) as (w' & printed & H1 & H2 & H3 & H4).
  destruct (generate_rows_blocks 30 g) as (blocks & E & Hb).
  destruct (blocks_length _ _ Hb) as (Hlen & _).
  rewrite range_length in Hlen. rewrite <- E in Hlen.
  exists w', printed, (map csv_cells (fst (generate_rows 30 g))).
  split; [exact H1|]. split; [exact H2|]. split; [exact H3|].
  split; [exact H4|]. rewrite length_map.
  change (Z.to_nat (30 - 0)) with 30%nat in Hlen. lia.
Qed.

Lemma main_writes_and_prints_witness :
  exists w' printed data,
    main insertion_order sample_rng empty_world = PyIO.Returned w' /\
    PyIO.stdout w' = PyIO.stdout empty_world ++ printed /\
    List.length printed = 5%nat /\
    PyIO.files w' "data/sample_quiz_results.csv" = Some (fieldnames :: data) /\
    4320 <= Z.of_nat (List.length data) <= 6300.
Proof.
  apply (main_writes_and_prints insertion_order sample_rng empty_world).
  - reflexivity.
  - exact insertion_order_set_iteration.
Defined.
